(** * Parcel tracking: storage layer, service layer and their SQL backend

    A shallow embedding of the parcel store ([ParcelStore]) and of the parcel
    service ([ParcelService]).  The store talks to a relational backend through
    the three entry points of Go's [database/sql] that the code uses
    ([Exec], [Query], [QueryRow]); the backend is an interface here
    ([Backend]), with two implementations further down: a small relational
    engine that parses and runs the statements, and a scripted backend that
    records the calls it receives.

    Go's [int] and [int64] are modelled as [Z]; the code performs no
    arithmetic on them.  Console output ([fmt.Printf]) is not modelled. *)

From Stdlib Require Import Ascii String.
From stdpp Require Import gmap strings list fin_maps.

Local Open Scope Z_scope.
Local Open Scope string_scope.

(** ** Go values shared by both layers *)

(** Go [error] values.  [ErrNoRows] is the sentinel [sql.ErrNoRows];
    [errorString] is what [errors.New] builds; [wrapError] is an error that
    wraps another one (what [errors.Is] walks through). *)
Inductive error :=
| ErrNoRows
| errorString (msg : string)
| wrapError (msg : string) (inner : error).

#[global] Instance error_eq_dec : EqDecision error.
Proof. solve_decision. Defined.

Definition errors_New (msg : string) : error := errorString msg.

Fixpoint errors_Is (err target : error) : bool :=
  if decide (err = target) then true
  else match err with
       | wrapError _ inner => errors_Is inner target
       | _ => false
       end.

(** Go's [(value, error)] results of library calls. *)
Inductive result (A : Type) :=
| Ok (a : A)
| Err (e : error).
Arguments Ok {A} a.
Arguments Err {A} e.

Definition ParcelStatusRegistered : string := "registered".
Definition ParcelStatusSent : string := "sent".
Definition ParcelStatusDelivered : string := "delivered".

Record Parcel := mkParcel {
  Number : Z;
  Client : Z;
  Status : string;
  Address : string;
  CreatedAt : string
}.

#[global] Instance Parcel_eq_dec : EqDecision Parcel.
Proof. solve_decision. Defined.

(** [Parcel{}] *)
Definition Parcel_zero : Parcel := mkParcel 0 0 "" "" "".

(** [p.Number = id] *)
Definition set_Number (id : Z) (p : Parcel) : Parcel :=
  mkParcel id (Client p) (Status p) (Address p) (CreatedAt p).

(** ** The [database/sql] interface *)

(** A value travelling to or from the driver. *)
Inductive value :=
| VNull
| VInt (z : Z)
| VText (s : string).

#[global] Instance value_eq_dec : EqDecision value.
Proof. solve_decision. Defined.

(** [sql.Result] *)
Record Result := mkResult {
  LastInsertId : result Z;
  RowsAffected : Z
}.

(** [*sql.Rows]: the rows the iteration yields and what [rows.Err()] reports
    once [rows.Next()] has returned false. *)
Record Rows := mkRows {
  rows_data : list (list value);
  rows_Err : option error
}.

(** The handle [*sql.DB].  Every call passes the backend's state along. *)
Class Backend (DB : Type) := {
  db_Exec : string → list value → DB → result Result * DB;
  db_Query : string → list value → DB → result Rows * DB
}.

(** [db.QueryRow(query, args...)] followed by [row.Scan]: the first row, the
    query's or the iteration's error, or [sql.ErrNoRows]. *)
Definition db_QueryRow `{Backend DB} (query : string) (args : list value)
    (db : DB) : result (list value) * DB :=
  match db_Query query args db with
  | (Err err, db') => (Err err, db')
  | (Ok rows, db') =>
      match rows_data rows with
      | r :: _ => (Ok r, db')
      | [] => (Err (default ErrNoRows (rows_Err rows)), db')
      end
  end.

(** [Scan] into an [*int64] and into a [*string].  The driver is taken to
    deliver a column in the Go type of its destination; NULL or a value of
    the other type is a Scan error. *)
Definition scan_int64 (v : value) : result Z :=
  match v with
  | VInt z => Ok z
  | _ => Err (errorString "sql: Scan error: unsupported conversion to int64")
  end.

Definition scan_string (v : value) : result string :=
  match v with
  | VText s => Ok s
  | _ => Err (errorString "sql: Scan error: unsupported conversion to string")
  end.

(** [Scan(&p.Number, &p.Client, &p.Status, &p.Address, &p.CreatedAt)] *)
Definition Scan_Parcel (r : list value) : result Parcel :=
  match r with
  | [number; client; status; address; created_at] =>
      match scan_int64 number, scan_int64 client, scan_string status,
            scan_string address, scan_string created_at with
      | Ok n, Ok c, Ok st, Ok a, Ok t => Ok (mkParcel n c st a t)
      | Err e, _, _, _, _ => Err e
      | _, Err e, _, _, _ => Err e
      | _, _, Err e, _, _ => Err e
      | _, _, _, Err e, _ => Err e
      | _, _, _, _, Err e => Err e
      end
  | _ => Err (errorString "sql: wrong number of destination arguments in Scan")
  end.

(** ** Storage layer *)

Module ParcelStore.
Section Store.
Context {DB : Type} `{!Backend DB}.

(** [func (s ParcelStore) Add(p *Parcel) error].  The pointer is [None]
    for nil; the second component is the caller's record after the call. *)
Definition Add (p : option Parcel) (db : DB)
    : option error * option Parcel * DB :=
  match p with
  | None => (Some (errors_New "gotten pointer is equal to nil"), None, db)
  | Some r =>
      match db_Exec
              "INSERT INTO parcel (client, status, address, created_at) VALUES (?, ?, ?, ?)"
              [VInt (Client r); VText (Status r); VText (Address r);
               VText (CreatedAt r)] db with
      | (Err err, db') => (Some err, Some r, db')
      | (Ok res, db') =>
          match LastInsertId res with
          | Err err => (Some err, Some r, db')
          | Ok lastParcelID => (None, Some (set_Number lastParcelID r), db')
          end
      end
  end.

(** [func (s ParcelStore) Get(number int) (Parcel, error)] *)
Definition Get (number : Z) (db : DB) : Parcel * option error * DB :=
  let '(row, db') :=
    db_QueryRow
      "SELECT number, client, status, address, created_at FROM parcel WHERE id = ?"
      [VInt number] db in
  let scanned :=
    match row with
    | Err err => Err err
    | Ok r => Scan_Parcel r
    end in
  match scanned with
  | Err err =>
      if errors_Is err ErrNoRows then (Parcel_zero, None, db')
      else (Parcel_zero, Some err, db')
  | Ok gottenParcel => (gottenParcel, None, db')
  end.

(** The loop of [GetByClient]: scan every row, stop at the first row that
    does not scan. *)
Fixpoint scan_rows (rs : list (list value)) (parcels : list Parcel)
    : result (list Parcel) :=
  match rs with
  | [] => Ok parcels
  | r :: rs' =>
      match Scan_Parcel r with
      | Err err => Err err
      | Ok newParcel => scan_rows rs' (parcels ++ [newParcel])
      end
  end.

(** [func (s ParcelStore) GetByClient(client int) ([]Parcel, error)];
    the nil slice is the empty list. *)
Definition GetByClient (client : Z) (db : DB)
    : list Parcel * option error * DB :=
  match db_Query
          "SELECT number, client, status, address, created_at FROM percel WHERE client = ?"
          [VInt client] db with
  | (Err err, db') => ([], Some err, db')
  | (Ok rows, db') =>
      match scan_rows (rows_data rows) [] with
      | Err err => ([], Some err, db')
      | Ok parcels =>
          match rows_Err rows with
          | Some err => ([], Some err, db')
          | None => (parcels, None, db')
          end
      end
  end.

(** [func (s ParcelStore) SetStatus(number int, status string) error] *)
Definition SetStatus (number : Z) (status : string) (db : DB)
    : option error * DB :=
  match db_Exec "UPDATE parcel SET status = ? WHERE number = ?"
                [VText status; VInt number] db with
  | (Err err, db') => (Some err, db')
  | (Ok _, db') => (None, db')
  end.

(** [func (s ParcelStore) SetAddress(number int, address string) error] *)
Definition SetAddress (number : Z) (address : string) (db : DB)
    : option error * DB :=
  match db_Exec "UPDATE parcel SET address = ? WHERE number = ?"
                [VText address; VInt number] db with
  | (Err err, db') => (Some err, db')
  | (Ok _, db') => (None, db')
  end.

(** [func (s ParcelStore) Delete(number int) error] *)
Definition Delete (number : Z) (db : DB) : option error * DB :=
  match db_Exec "DELETE FROM parcel WHERE number = ? AND status = registered"
                [VInt number] db with
  | (Err err, db') => (Some err, db')
  | (Ok _, db') => (None, db')
  end.
End Store.
End ParcelStore.

(** ** Service layer *)

Module ParcelService.
Section Service.
Context {DB : Type} `{!Backend DB}.

(** [func (s ParcelService) Register(client int64, address string)
    (Parcel, error)].  [now] is [time.Now().UTC().Format(time.RFC3339)]. *)
Definition Register (now : string) (client : Z) (address : string) (db : DB)
    : Parcel * option error * DB :=
  let parcel := mkParcel 0 client ParcelStatusRegistered address now in
  match ParcelStore.Add (Some parcel) db with
  | (Some err, _, db') => (Parcel_zero, Some err, db')
  | (None, parcel', db') => (default parcel parcel', None, db')
  end.

(** [func (s ParcelService) PrintClientParcels(client int) error] *)
Definition PrintClientParcels (client : Z) (db : DB) : option error * DB :=
  match ParcelStore.GetByClient client db with
  | (_, Some err, db') => (Some err, db')
  | (_, None, db') => (None, db')
  end.

(** The [switch parcel.Status] of [NextStatus]: [None] is the
    [return nil] of the delivered case, [Some next] the value of
    [nextStatus] when the switch is left. *)
Definition nextStatus_of (status : string) : option string :=
  if decide (status = ParcelStatusRegistered) then Some ParcelStatusSent
  else if decide (status = ParcelStatusSent) then Some ParcelStatusDelivered
  else if decide (status = ParcelStatusDelivered) then None
  else Some "".

(** [func (s ParcelService) NextStatus(number int) error] *)
Definition NextStatus (number : Z) (db : DB) : option error * DB :=
  match ParcelStore.Get number db with
  | (_, Some err, db') => (Some err, db')
  | (parcel, None, db') =>
      match nextStatus_of (Status parcel) with
      | None => (None, db')
      | Some nextStatus => ParcelStore.SetStatus number nextStatus db'
      end
  end.

(** [func (s ParcelService) ChangeAddress(number int, address string) error] *)
Definition ChangeAddress (number : Z) (address : string) (db : DB)
    : option error * DB :=
  ParcelStore.SetAddress number address db.

(** [func (s ParcelService) Delete(number int) error] *)
Definition Delete (number : Z) (db : DB) : option error * DB :=
  ParcelStore.Delete number db.
End Service.
End ParcelService.

(** ** A relational backend

    The statements are kept as the text the store sends; the backend parses
    them.  The grammar covers what the store uses: INSERT INTO .. VALUES,
    SELECT .. FROM .. WHERE, UPDATE .. SET .. WHERE and DELETE FROM .. WHERE,
    with conjunctions of equalities between column names, [?] placeholders
    and quoted text. *)

Module Sql.

Inductive token :=
| TWord (w : string)
| TQuoted (s : string)
| TParam (i : nat)
| TLParen
| TRParen
| TComma
| TEquals.

Inductive lex_state :=
| LIdle
| LWord (w : string)
| LQuote (s : string).

Definition is_word_char (c : ascii) : bool :=
  let n := nat_of_ascii c in
  ((48 <=? n) && (n <=? 57) || (65 <=? n) && (n <=? 90)
   || (97 <=? n) && (n <=? 122) || (n =? 95))%nat.

Definition flush (st : lex_state) : list token :=
  match st with
  | LWord w => [TWord w]
  | _ => []
  end.

(** [k] counts the placeholders met so far: the [i]-th [?] of a statement is
    bound to the [i]-th argument of the call. *)
Fixpoint lex (st : lex_state) (k : nat) (s : string) : option (list token) :=
  match s with
  | EmptyString =>
      match st with
      | LQuote _ => None
      | _ => Some (flush st)
      end
  | String c s' =>
      match st with
      | LQuote q =>
          if Ascii.eqb c "'" then (TQuoted q ::.) <$> lex LIdle k s'
          else lex (LQuote (q ++ String c "")) k s'
      | _ =>
          if is_word_char c then
            lex (LWord (match st with
                        | LWord w => w ++ String c ""
                        | _ => String c ""
                        end)) k s'
          else if Ascii.eqb c " " then app (flush st) <$> lex LIdle k s'
          else if Ascii.eqb c "'" then app (flush st) <$> lex (LQuote "") k s'
          else if Ascii.eqb c "?" then
            (λ ts, app (flush st) (TParam k :: ts)) <$> lex LIdle (S k) s'
          else if Ascii.eqb c "(" then
            (λ ts, app (flush st) (TLParen :: ts)) <$> lex LIdle k s'
          else if Ascii.eqb c ")" then
            (λ ts, app (flush st) (TRParen :: ts)) <$> lex LIdle k s'
          else if Ascii.eqb c "," then
            (λ ts, app (flush st) (TComma :: ts)) <$> lex LIdle k s'
          else if Ascii.eqb c "=" then
            (λ ts, app (flush st) (TEquals :: ts)) <$> lex LIdle k s'
          else None
      end
  end.

Inductive expr :=
| Col (name : string)
| Placeholder (i : nat)
| Lit (v : value).

(** A WHERE clause: a conjunction of equalities. *)
Abbreviation where_clause := (list (expr * expr)).

Inductive stmt :=
| Insert (table : string) (cols : list string) (vals : list expr)
| Select (cols : list string) (table : string) (wh : where_clause)
| Update (table : string) (col : string) (e : expr) (wh : where_clause)
| Delete (table : string) (wh : where_clause).

Definition keywords : list string :=
  ["INSERT"; "INTO"; "VALUES"; "SELECT"; "FROM"; "WHERE"; "UPDATE"; "SET";
   "DELETE"; "AND"].

Definition is_keyword (w : string) : bool := bool_decide (w ∈ keywords).

Definition is_word (kw : string) (t : token) : bool :=
  match t with
  | TWord w => bool_decide (w = kw)
  | _ => false
  end.

(** A bare word that is not a keyword names a column; text is a literal only
    between quotes. *)
Definition parse_expr (t : token) : option expr :=
  match t with
  | TWord w => if is_keyword w then None else Some (Col w)
  | TParam i => Some (Placeholder i)
  | TQuoted s => Some (Lit (VText s))
  | _ => None
  end.

Definition parse_name (t : token) : option string :=
  match t with
  | TWord w => if is_keyword w then None else Some w
  | _ => None
  end.

(** [item, item, ..]: the items and the tokens after the last one. *)
Fixpoint parse_list {A} (item : token → option A) (ts : list token)
    : option (list A * list token) :=
  match ts with
  | t :: rest =>
      match item t with
      | None => None
      | Some a =>
          match rest with
          | TComma :: rest' =>
              match parse_list item rest' with
              | Some (l, r) => Some (a :: l, r)
              | None => None
              end
          | _ => Some ([a], rest)
          end
      end
  | [] => None
  end.

Fixpoint parse_where (ts : list token) : option where_clause :=
  match ts with
  | a :: TEquals :: b :: rest =>
      match parse_expr a, parse_expr b with
      | Some ea, Some eb =>
          match rest with
          | [] => Some [(ea, eb)]
          | t :: rest' =>
              if is_word "AND" t then ((ea, eb) ::.) <$> parse_where rest'
              else None
          end
      | _, _ => None
      end
  | _ => None
  end.

Definition parse_tokens (ts : list token) : option stmt :=
  match ts with
  | TWord kw :: rest =>
      if decide (kw = "INSERT") then
        match rest with
        | into :: t :: TLParen :: r1 =>
            if is_word "INTO" into then
              table ← parse_name t;
              '(cols, r2) ← parse_list parse_name r1;
              match r2 with
              | TRParen :: values :: TLParen :: r3 =>
                  if is_word "VALUES" values then
                    '(vals, r4) ← parse_list parse_expr r3;
                    match r4 with
                    | [TRParen] => Some (Insert table cols vals)
                    | _ => None
                    end
                  else None
              | _ => None
              end
            else None
        | _ => None
        end
      else if decide (kw = "SELECT") then
        '(cols, r1) ← parse_list parse_name rest;
        match r1 with
        | from :: t :: where_ :: r2 =>
            if is_word "FROM" from && is_word "WHERE" where_ then
              table ← parse_name t;
              Select cols table <$> parse_where r2
            else None
        | _ => None
        end
      else if decide (kw = "UPDATE") then
        match rest with
        | t :: set :: c :: TEquals :: e :: where_ :: r1 =>
            if is_word "SET" set && is_word "WHERE" where_ then
              table ← parse_name t;
              col ← parse_name c;
              e' ← parse_expr e;
              Update table col e' <$> parse_where r1
            else None
        | _ => None
        end
      else if decide (kw = "DELETE") then
        match rest with
        | from :: t :: where_ :: r1 =>
            if is_word "FROM" from && is_word "WHERE" where_ then
              table ← parse_name t;
              Delete table <$> parse_where r1
            else None
        | _ => None
        end
      else None
  | _ => None
  end.

Definition parse (q : string) : option stmt :=
  lex LIdle 0 q ≫= parse_tokens.

(** *** Tables and the evaluation of statements *)

(** A table: its declared columns, the columns that receive the generated
    identifier when a row is inserted, the next identifier, and the rows in
    insertion order. *)
Record Table := mkTable {
  tcols : list string;
  tauto : list string;
  tnext : Z;
  trows : list (gmap string value)
}.

Definition expr_cols (e : expr) : list string :=
  match e with
  | Col c => [c]
  | _ => []
  end.

Definition where_cols (wh : where_clause) : list string :=
  flat_map (λ ab, expr_cols ab.1 ++ expr_cols ab.2)%list wh.

Definition expr_params (e : expr) : nat :=
  match e with
  | Placeholder _ => 1
  | _ => 0
  end.

Definition where_params (wh : where_clause) : nat :=
  foldr (λ ab n, expr_params ab.1 + expr_params ab.2 + n)%nat 0%nat wh.

(** The number of [?] in a statement. *)
Definition stmt_params (s : stmt) : nat :=
  match s with
  | Insert _ _ vals => foldr (λ e n, expr_params e + n)%nat 0%nat vals
  | Select _ _ wh => where_params wh
  | Update _ _ e wh => (expr_params e + where_params wh)%nat
  | Delete _ wh => where_params wh
  end.

(** Name resolution: the first name used that the table does not declare. *)
Definition unknown_column (declared used : list string) : option error :=
  (λ c, errorString ("no such column: " ++ c))
    <$> List.find (λ c, negb (bool_decide (c ∈ declared))) used.

Definition no_such_table (t : string) : error :=
  errorString ("no such table: " ++ t).

Definition eval_expr (args : list value) (r : gmap string value) (e : expr)
    : value :=
  match e with
  | Col c => default VNull (r !! c)
  | Placeholder i => default VNull (args !! i)
  | Lit v => v
  end.

(** SQL equality: NULL equals nothing; no conversion between types. *)
Definition sql_eq (a b : value) : bool :=
  match a, b with
  | VNull, _ | _, VNull => false
  | _, _ => bool_decide (a = b)
  end.

Definition eval_where (args : list value) (wh : where_clause)
    (r : gmap string value) : bool :=
  forallb (λ ab, sql_eq (eval_expr args r ab.1) (eval_expr args r ab.2)) wh.

(** The value an inserted row gets in column [c]: the value given for it,
    else the generated identifier in an identifier column, else NULL. *)
Definition insert_value (T : Table) (given : gmap string value) (c : string)
    : value :=
  match given !! c with
  | Some v => v
  | None => if bool_decide (c ∈ tauto T) then VInt (tnext T) else VNull
  end.

Definition new_row (T : Table) (given : gmap string value)
    : gmap string value :=
  list_to_map ((λ c, (c, insert_value T given c)) <$> tcols T).

Definition set_rows (T : Table) (rows : list (gmap string value)) : Table :=
  mkTable (tcols T) (tauto T) (tnext T) rows.

(** Writing statements.  A SELECT passed to [Exec] is checked and changes
    nothing. *)
Definition exec_stmt (s : stmt) (args : list value) (db : gmap string Table)
    : result Result * gmap string Table :=
  match s with
  | Insert t cols vals =>
      match db !! t with
      | None => (Err (no_such_table t), db)
      | Some T =>
          match unknown_column (tcols T) cols,
                unknown_column [] (flat_map expr_cols vals) with
          | Some err, _ | None, Some err => (Err err, db)
          | None, None =>
              if decide (length cols = length vals) then
                let given :=
                  list_to_map (zip cols (eval_expr args ∅ <$> vals)) in
                let T' :=
                  mkTable (tcols T) (tauto T) (tnext T + 1)
                          (trows T ++ [new_row T given]) in
                (Ok (mkResult (Ok (tnext T)) 1), <[t := T']> db)
              else
                (Err (errorString "values do not match the column list"), db)
          end
      end
  | Update t c e wh =>
      match db !! t with
      | None => (Err (no_such_table t), db)
      | Some T =>
          match unknown_column (tcols T)
                  (c :: expr_cols e ++ where_cols wh) with
          | Some err => (Err err, db)
          | None =>
              let upd r :=
                if eval_where args wh r then <[c := eval_expr args r e]> r
                else r in
              (Ok (mkResult (Ok 0)
                     (Z.of_nat
                        (length (List.filter (eval_where args wh) (trows T))))),
               <[t := set_rows T (upd <$> trows T)]> db)
          end
      end
  | Delete t wh =>
      match db !! t with
      | None => (Err (no_such_table t), db)
      | Some T =>
          match unknown_column (tcols T) (where_cols wh) with
          | Some err => (Err err, db)
          | None =>
              let keep r := negb (eval_where args wh r) in
              (Ok (mkResult (Ok 0)
                     (Z.of_nat
                        (length (List.filter (eval_where args wh) (trows T))))),
               <[t := set_rows T (List.filter keep (trows T))]> db)
          end
      end
  | Select cols t wh =>
      match db !! t with
      | None => (Err (no_such_table t), db)
      | Some T =>
          match unknown_column (tcols T) (cols ++ where_cols wh) with
          | Some err => (Err err, db)
          | None => (Ok (mkResult (Ok 0) 0), db)
          end
      end
  end.

(** Reading statements: the selected columns of the rows that satisfy the
    WHERE clause, in insertion order. *)
Definition query_stmt (s : stmt) (args : list value) (db : gmap string Table)
    : result Rows :=
  match s with
  | Select cols t wh =>
      match db !! t with
      | None => Err (no_such_table t)
      | Some T =>
          match unknown_column (tcols T) (cols ++ where_cols wh) with
          | Some err => Err err
          | None =>
              Ok (mkRows
                    ((λ r, (λ c, default VNull (r !! c)) <$> cols)
                       <$> List.filter (eval_where args wh) (trows T))
                    None)
          end
      end
  | _ => Err (errorString "statement returns no rows")
  end.

(** [database/sql] refuses a call whose argument count differs from the
    number of placeholders of the prepared statement. *)
Definition prepare (q : string) (args : list value) : result stmt :=
  match parse q with
  | None => Err (errorString "syntax error")
  | Some s =>
      if decide (stmt_params s = length args) then Ok s
      else Err (errorString "sql: wrong number of arguments")
  end.

Definition Exec (q : string) (args : list value) (db : gmap string Table)
    : result Result * gmap string Table :=
  match prepare q args with
  | Err err => (Err err, db)
  | Ok s => exec_stmt s args db
  end.

Definition Query (q : string) (args : list value) (db : gmap string Table)
    : result Rows * gmap string Table :=
  match prepare q args with
  | Err err => (Err err, db)
  | Ok s => (query_stmt s args db, db)
  end.

#[global] Instance engine : Backend (gmap string Table) :=
  {| db_Exec := Exec; db_Query := Query |}.

End Sql.

(** ** A scripted backend

    It answers each call with the next prepared reply and keeps the list of
    the calls it received, statement and arguments. *)

Module Script.

Inductive reply :=
| ExecReply (r : result Result)
| QueryReply (r : result Rows).

Record state := mkState {
  replies : list reply;
  calls : list (string * list value)
}.

Definition unexpected : error := errorString "call was not expected".

Definition Exec (q : string) (args : list value) (s : state)
    : result Result * state :=
  let calls' := (calls s ++ [(q, args)])%list in
  match replies s with
  | ExecReply r :: rest => (r, mkState rest calls')
  | _ => (Err unexpected, mkState (replies s) calls')
  end.

Definition Query (q : string) (args : list value) (s : state)
    : result Rows * state :=
  let calls' := (calls s ++ [(q, args)])%list in
  match replies s with
  | QueryReply r :: rest => (r, mkState rest calls')
  | _ => (Err unexpected, mkState (replies s) calls')
  end.

#[global] Instance scripted : Backend state :=
  {| db_Exec := Exec; db_Query := Query |}.

End Script.

(** ** The parcel table and the states of the store *)

(** Modelled from the spec: the declaration of the table [parcel], which the
    sources use and do not contain.  Section 6 gives one table named
    [parcel] with the columns [number] (generated identifier, primary key),
    [client], [status], [address] and [created_at]; that is the table with
    [with_id = false].  With [with_id = true] the table has one more column,
    [id], that holds the same generated identifier as [number]. *)
Definition parcel_key (with_id : bool) : list string :=
  if with_id then ["id"; "number"] else ["number"].

Definition parcel_columns (with_id : bool) : list string :=
  (parcel_key with_id ++ ["client"; "status"; "address"; "created_at"])%list.

(** The stored row of a parcel record. *)
Definition row_of (with_id : bool) (p : Parcel) : gmap string value :=
  list_to_map
    (((λ c, (c, VInt (Number p))) <$> parcel_key with_id)
     ++ [("client", VInt (Client p)); ("status", VText (Status p));
         ("address", VText (Address p)); ("created_at", VText (CreatedAt p))]).

(** The store that holds the given parcels, in insertion order, and hands
    out [next] as the next identifier. *)
Definition store_of (with_id : bool) (next : Z) (ps : list Parcel)
    : gmap string Sql.Table :=
  {[ "parcel" :=
       Sql.mkTable (parcel_columns with_id) (parcel_key with_id) next
                   (row_of with_id <$> ps) ]}.

Definition fresh_store (with_id : bool) : gmap string Sql.Table :=
  store_of with_id 1 [].

(** The store of Section 6, with no parcel in it. *)
Definition empty_store : gmap string Sql.Table := fresh_store false.

(** What the statements of the store do to the list of stored parcels. *)
Definition with_address (number : Z) (address : string) (p : Parcel)
    : Parcel :=
  if decide (Number p = number)
  then mkParcel (Number p) (Client p) (Status p) address (CreatedAt p)
  else p.

Definition with_status (number : Z) (status : string) (p : Parcel) : Parcel :=
  if decide (Number p = number)
  then mkParcel (Number p) (Client p) status (Address p) (CreatedAt p)
  else p.

Definition find_parcel (number : Z) (ps : list Parcel) : option Parcel :=
  List.find (λ p, bool_decide (Number p = number)) ps.

(** The text of the statements, by name. *)
Definition sql_insert : string :=
  "INSERT INTO parcel (client, status, address, created_at) VALUES (?, ?, ?, ?)".
Definition sql_get : string :=
  "SELECT number, client, status, address, created_at FROM parcel WHERE id = ?".
Definition sql_get_by_client : string :=
  "SELECT number, client, status, address, created_at FROM percel WHERE client = ?".
Definition sql_set_status : string :=
  "UPDATE parcel SET status = ? WHERE number = ?".
Definition sql_set_address : string :=
  "UPDATE parcel SET address = ? WHERE number = ?".
Definition sql_delete : string :=
  "DELETE FROM parcel WHERE number = ? AND status = registered".

Definition insert_args (p : Parcel) : list value :=
  [VInt (Client p); VText (Status p); VText (Address p); VText (CreatedAt p)].

(** ** Sequences of service operations *)

Inductive action :=
| DoRegister (now : string) (client : Z) (address : string)
| DoNextStatus (number : Z)
| DoChangeAddress (number : Z) (address : string)
| DoDelete (number : Z).

(** The store after one operation of the service. *)
Definition run (a : action) (db : gmap string Sql.Table)
    : gmap string Sql.Table :=
  match a with
  | DoRegister now client address =>
      (ParcelService.Register now client address db).2
  | DoNextStatus number => (ParcelService.NextStatus number db).2
  | DoChangeAddress number address =>
      (ParcelService.ChangeAddress number address db).2
  | DoDelete number => (ParcelService.Delete number db).2
  end.

Inductive reachable (with_id : bool) : gmap string Sql.Table → Prop :=
| reach_fresh : reachable with_id (fresh_store with_id)
| reach_step a db :
    reachable with_id db → reachable with_id (run a db).

(** One move of a status: it stays, or it takes one step of
    registered, sent, delivered. *)
Definition forward (s s' : string) : Prop :=
  s' = s
  ∨ (s = ParcelStatusRegistered ∧ s' = ParcelStatusSent)
  ∨ (s = ParcelStatusSent ∧ s' = ParcelStatusDelivered).

Definition lifecycle_status (s : string) : Prop :=
  s = ParcelStatusRegistered ∨ s = ParcelStatusSent
  ∨ s = ParcelStatusDelivered.

(** A well-formed list of stored parcels: every number was handed out
    already, every status is one of the lifecycle, no number occurs twice. *)
Definition store_inv (next : Z) (ps : list Parcel) : Prop :=
  Forall (λ p, Number p < next ∧ lifecycle_status (Status p)) ps
  ∧ NoDup (Number <$> ps).

(** ** The program around the service *)

Module Env.

(** The process environment, names to values.  [os.Getenv] gives the empty
    string for a name that is not set. *)
Definition Getenv (key : string) (env : gmap string string) : string :=
  default "" (env !! key).

Definition has_char (c : ascii) (s : string) : bool :=
  existsb (Ascii.eqb c) (list_ascii_of_string s).

(** [os.Setenv] refuses an empty name, a name that holds [=] or a NUL
    character and a value that holds a NUL character; otherwise it sets the
    variable. *)
Definition Setenv (key value : string) (env : gmap string string)
    : option error * gmap string string :=
  if decide (key = "") then (Some (errorString "setenv: invalid argument"), env)
  else if has_char "=" key || has_char "000" key || has_char "000" value
  then (Some (errorString "setenv: invalid argument"), env)
  else (None, <[key := value]> env).

(** [func setDefault(key, value string)]; the error of [os.Setenv] is
    dropped, as in the source. *)
Definition setDefault (key value : string) (env : gmap string string)
    : gmap string string :=
  if decide (Getenv key env = "") then (Setenv key value env).2 else env.

End Env.

Module Main.
Section Scenario.
Context {DB : Type} `{!Backend DB}.

(** [if err != nil { fmt.Println(err); return }] between two steps. *)
Definition and_then (r : option error * DB) (k : DB → option error * DB)
    : option error * DB :=
  match r with
  | (Some err, db) => (Some err, db)
  | (None, db) => k db
  end.

Definition address : string := "Псков, д. Пушкина, ул. Колотушкина, д. 5".
Definition newAddress : string := "Саратов, д. Верхние Зори, ул. Козлова, д. 25".

(** [func main()] from the creation of the service on: the sequence of calls
    on the service, left at the first error.  The result is the error
    [main] prints before it returns, if any, and the backend at exit.
    [now1] and [now2] are the times of the two registrations. *)
Definition main (now1 now2 : string) (db : DB) : option error * DB :=
  let client := 1 in
  match ParcelService.Register now1 client address db with
  | (_, Some err, db) => (Some err, db)
  | (p, None, db) =>
      and_then (ParcelService.ChangeAddress (Number p) newAddress db) (λ db,
      and_then (ParcelService.NextStatus (Number p) db) (λ db,
      and_then (ParcelService.PrintClientParcels client db) (λ db,
      and_then (ParcelService.Delete (Number p) db) (λ db,
      and_then (ParcelService.PrintClientParcels client db) (λ db,
      match ParcelService.Register now2 client address db with
      | (_, Some err, db) => (Some err, db)
      | (p, None, db) =>
          and_then (ParcelService.Delete (Number p) db) (λ db,
          ParcelService.PrintClientParcels client db)
      end)))))
  end.
End Scenario.
End Main.

(** A store of Section 6 with a second table of the same shape named
    [percel]: [ps] are the parcels of [parcel], [qs] those of [percel]. *)
Definition store_with_percel (next : Z) (ps : list Parcel)
    (next' : Z) (qs : list Parcel) : gmap string Sql.Table :=
  <["percel" :=
      Sql.mkTable (parcel_columns false) (parcel_key false) next'
                  (row_of false <$> qs)]>
    (store_of false next ps).

(** ** Stores and backends used as test inputs *)

(** Parcel number 1 of client 7. *)
Definition parcel1 (status address : string) : Parcel :=
  mkParcel 1 7 status address "2024-05-01T10:00:00Z".
(** The store of Section 6 after one [Register]. *)
Definition registered_store : gmap string Sql.Table :=
  (ParcelService.Register "2024-05-01T10:00:00Z" 7 "A" empty_store).2.
(** The same store once the parcel was marked sent through the store's
    [SetStatus]. *)
Definition sent_store : gmap string Sql.Table :=
  (ParcelStore.SetStatus 1 ParcelStatusSent registered_store).2.
(** A backend whose next [Exec] fails. *)
Definition failing_backend : Script.state :=
  Script.mkState [Script.ExecReply (Err (errorString "database error"))] [].
(** A backend that answers the next query with no rows and the next
    statement with zero rows affected. *)
Definition no_row_backend : Script.state :=
  Script.mkState
    [Script.QueryReply (Ok (mkRows [] None));
     Script.ExecReply (Ok (mkResult (Ok 0) 0))] [].
(** A store with two empty tables of the same shape, [parcel] and
    [percel]. *)
Definition two_table_store : gmap string Sql.Table :=
  <["percel" := Sql.mkTable (parcel_columns false) (parcel_key false) 1 []]>
    empty_store.


(** A backend that answers the lookup with one row, parcel 101 of client
    102 with the given status, and the next statement with one row
    affected. *)
Definition row_backend (status : string) : Script.state :=
  Script.mkState
    [Script.QueryReply
       (Ok (mkRows [[VInt 101; VInt 102; VText status; VText "A"; VText "t"]]
              None));
     Script.ExecReply (Ok (mkResult (Ok 0) 1))] [].

(** * The store on the relational backend

    What each operation of the store does to a store that holds a list of
    parcels. *)

Lemma prepare_insert a b c d :
  Sql.prepare sql_insert [a; b; c; d]
  = Ok (Sql.Insert "parcel" ["client"; "status"; "address"; "created_at"]
          [Sql.Placeholder 0; Sql.Placeholder 1; Sql.Placeholder 2;
           Sql.Placeholder 3]).
Proof. reflexivity. Qed.

Lemma prepare_get a :
  Sql.prepare sql_get [a]
  = Ok (Sql.Select ["number"; "client"; "status"; "address"; "created_at"]
          "parcel" [(Sql.Col "id", Sql.Placeholder 0)]).
Proof. reflexivity. Qed.

Lemma prepare_get_by_client a :
  Sql.prepare sql_get_by_client [a]
  = Ok (Sql.Select ["number"; "client"; "status"; "address"; "created_at"]
          "percel" [(Sql.Col "client", Sql.Placeholder 0)]).
Proof. reflexivity. Qed.

Lemma prepare_set_status a b :
  Sql.prepare sql_set_status [a; b]
  = Ok (Sql.Update "parcel" "status" (Sql.Placeholder 0)
          [(Sql.Col "number", Sql.Placeholder 1)]).
Proof. reflexivity. Qed.

Lemma prepare_set_address a b :
  Sql.prepare sql_set_address [a; b]
  = Ok (Sql.Update "parcel" "address" (Sql.Placeholder 0)
          [(Sql.Col "number", Sql.Placeholder 1)]).
Proof. reflexivity. Qed.

Lemma prepare_delete a :
  Sql.prepare sql_delete [a]
  = Ok (Sql.Delete "parcel"
          [(Sql.Col "number", Sql.Placeholder 0);
           (Sql.Col "status", Sql.Col "registered")]).
Proof. reflexivity. Qed.

Lemma row_of_number b p : row_of b p !! "number" = Some (VInt (Number p)).
Proof. destruct b; vm_compute; reflexivity. Qed.

Lemma row_of_id p : row_of true p !! "id" = Some (VInt (Number p)).
Proof. vm_compute; reflexivity. Qed.

Lemma row_of_project b p :
  (λ c, default VNull (row_of b p !! c))
    <$> ["number"; "client"; "status"; "address"; "created_at"]
  = [VInt (Number p); VInt (Client p); VText (Status p); VText (Address p);
     VText (CreatedAt p)].
Proof. destruct b; vm_compute; reflexivity. Qed.

Lemma row_of_set_address b p a :
  <["address" := VText a]> (row_of b p)
  = row_of b (mkParcel (Number p) (Client p) (Status p) a (CreatedAt p)).
Proof. destruct b; vm_compute; reflexivity. Qed.

Lemma row_of_set_status b p s :
  <["status" := VText s]> (row_of b p)
  = row_of b (mkParcel (Number p) (Client p) s (Address p) (CreatedAt p)).
Proof. destruct b; vm_compute; reflexivity. Qed.

Lemma new_row_of b next rows p :
  Sql.new_row (Sql.mkTable (parcel_columns b) (parcel_key b) next rows)
    (list_to_map
       (zip ["client"; "status"; "address"; "created_at"]
          (Sql.eval_expr (insert_args p) ∅
             <$> [Sql.Placeholder 0; Sql.Placeholder 1; Sql.Placeholder 2;
                  Sql.Placeholder 3])))
  = row_of b (set_Number next p).
Proof. destruct b; vm_compute; reflexivity. Qed.

Lemma columns_known b :
  Sql.unknown_column (parcel_columns b)
    ["client"; "status"; "address"; "created_at"] = None
  ∧ Sql.unknown_column (parcel_columns b) ["status"; "number"] = None
  ∧ Sql.unknown_column (parcel_columns b) ["address"; "number"] = None.
Proof. destruct b; repeat split; reflexivity. Qed.

Lemma engine_Add b next ps p :
  ParcelStore.Add (Some p) (store_of b next ps)
  = (None, Some (set_Number next p),
     store_of b (next + 1) (ps ++ [set_Number next p])).
Proof.
  unfold ParcelStore.Add.
  change (db_Exec ?q ?a ?d) with (Sql.Exec sql_insert (insert_args p) d).
  unfold Sql.Exec, insert_args at 1. rewrite prepare_insert.
  unfold Sql.exec_stmt, store_of. rewrite lookup_singleton_eq.
  cbn [Sql.tcols Sql.tauto Sql.tnext Sql.trows].
  rewrite (proj1 (columns_known b)).
  replace (Sql.unknown_column [] _) with (@None error) by reflexivity.
  rewrite decide_True by reflexivity.
  rewrite new_row_of, insert_singleton_eq, fmap_app. reflexivity.
Qed.

Lemma where_number b p (x : value) n :
  Sql.eval_where [x; VInt n] [(Sql.Col "number", Sql.Placeholder 1)]
    (row_of b p)
  = bool_decide (Number p = n).
Proof.
  unfold Sql.eval_where, Sql.eval_expr. cbn [forallb fst snd].
  rewrite row_of_number. cbn [default lookup list_lookup Sql.sql_eq].
  rewrite andb_true_r. apply bool_decide_ext. split; [intros [= ->]; reflexivity | intros ->; reflexivity].
Qed.

Lemma store_of_map b next ps (f : gmap string value → gmap string value) g :
  (∀ p, f (row_of b p) = row_of b (g p)) →
  (@None error,
   ({[ "parcel" :=
        Sql.mkTable (parcel_columns b) (parcel_key b) next
          (f <$> (row_of b <$> ps)) ]} : gmap string Sql.Table))
  = (None, store_of b next (g <$> ps)).
Proof.
  intros Hfg. unfold store_of. rewrite <- !list_fmap_compose.
  do 3 f_equal. apply list_fmap_ext. intros _ p _. apply Hfg.
Qed.

Lemma engine_SetAddress b next ps n a :
  ParcelStore.SetAddress n a (store_of b next ps)
  = (None, store_of b next (with_address n a <$> ps)).
Proof.
  unfold ParcelStore.SetAddress.
  change (db_Exec ?q ?a ?d) with (Sql.Exec sql_set_address a d).
  unfold Sql.Exec. rewrite prepare_set_address.
  unfold Sql.exec_stmt, store_of. rewrite lookup_singleton_eq.
  cbn [Sql.tcols Sql.tauto Sql.tnext Sql.trows Sql.expr_cols Sql.where_cols
       flat_map app fst snd].
  rewrite (proj2 (proj2 (columns_known b))).
  rewrite insert_singleton_eq. unfold Sql.set_rows.
  cbn [Sql.tcols Sql.tauto Sql.tnext Sql.trows].
  apply store_of_map. intros p.
  rewrite where_number. unfold with_address, Sql.eval_expr.
  cbn [default lookup list_lookup].
  destruct (decide (Number p = n)) as [Hn | Hn].
  - rewrite bool_decide_eq_true_2 by done. apply row_of_set_address.
  - rewrite bool_decide_eq_false_2 by done. reflexivity.
Qed.

Lemma engine_SetStatus b next ps n s :
  ParcelStore.SetStatus n s (store_of b next ps)
  = (None, store_of b next (with_status n s <$> ps)).
Proof.
  unfold ParcelStore.SetStatus.
  change (db_Exec ?q ?a ?d) with (Sql.Exec sql_set_status a d).
  unfold Sql.Exec. rewrite prepare_set_status.
  unfold Sql.exec_stmt, store_of. rewrite lookup_singleton_eq.
  cbn [Sql.tcols Sql.tauto Sql.tnext Sql.trows Sql.expr_cols Sql.where_cols
       flat_map app fst snd].
  rewrite (proj1 (proj2 (columns_known b))).
  rewrite insert_singleton_eq. unfold Sql.set_rows.
  cbn [Sql.tcols Sql.tauto Sql.tnext Sql.trows].
  apply store_of_map. intros p.
  rewrite where_number. unfold with_status, Sql.eval_expr.
  cbn [default lookup list_lookup].
  destruct (decide (Number p = n)) as [Hn | Hn].
  - rewrite bool_decide_eq_true_2 by done. apply row_of_set_status.
  - rewrite bool_decide_eq_false_2 by done. reflexivity.
Qed.

Lemma engine_Delete b next ps n :
  ParcelStore.Delete n (store_of b next ps)
  = (Some (errorString "no such column: registered"), store_of b next ps).
Proof.
  unfold ParcelStore.Delete.
  change (db_Exec ?q ?a ?d) with (Sql.Exec sql_delete a d).
  unfold Sql.Exec. rewrite prepare_delete.
  unfold Sql.exec_stmt, store_of. rewrite lookup_singleton_eq.
  cbn [Sql.tcols].
  replace (Sql.unknown_column (parcel_columns b) _)
    with (Some (errorString "no such column: registered"))
    by (destruct b; reflexivity).
  reflexivity.
Qed.

Lemma engine_GetByClient b next ps c :
  ParcelStore.GetByClient c (store_of b next ps)
  = ([], Some (errorString "no such table: percel"), store_of b next ps).
Proof.
  unfold ParcelStore.GetByClient.
  change (db_Query ?q ?a ?d) with (Sql.Query sql_get_by_client a d).
  unfold Sql.Query. rewrite prepare_get_by_client.
  unfold Sql.query_stmt, store_of. rewrite lookup_singleton_ne by done.
  reflexivity.
Qed.

Lemma engine_Get_no_id next ps n :
  ParcelStore.Get n (store_of false next ps)
  = (Parcel_zero, Some (errorString "no such column: id"),
     store_of false next ps).
Proof.
  unfold ParcelStore.Get, db_QueryRow.
  change (db_Query ?q ?a ?d) with (Sql.Query sql_get a d).
  unfold Sql.Query. rewrite prepare_get.
  unfold Sql.query_stmt, store_of. rewrite lookup_singleton_eq.
  reflexivity.
Qed.

Lemma where_id p n :
  Sql.eval_where [VInt n] [(Sql.Col "id", Sql.Placeholder 0)] (row_of true p)
  = bool_decide (Number p = n).
Proof.
  unfold Sql.eval_where, Sql.eval_expr. cbn [forallb fst snd].
  rewrite row_of_id. cbn [default lookup list_lookup Sql.sql_eq].
  rewrite andb_true_r. apply bool_decide_ext.
  split; [intros [= ->]; reflexivity | intros ->; reflexivity].
Qed.

Lemma Scan_row_of b p :
  Scan_Parcel
    ((λ c, default VNull (row_of b p !! c))
       <$> ["number"; "client"; "status"; "address"; "created_at"])
  = Ok p.
Proof. rewrite row_of_project. destruct p; reflexivity. Qed.

(** The rows the lookup by [id] selects: none when no parcel has the number,
    else the row of the first such parcel at the head. *)
Lemma select_by_id n ps (project : gmap string value → list value) :
  match find_parcel n ps with
  | Some p =>
      ∃ rest,
        project
          <$> List.filter
                (Sql.eval_where [VInt n] [(Sql.Col "id", Sql.Placeholder 0)])
                (row_of true <$> ps)
        = project (row_of true p) :: rest
  | None =>
      project
        <$> List.filter
              (Sql.eval_where [VInt n] [(Sql.Col "id", Sql.Placeholder 0)])
              (row_of true <$> ps)
      = []
  end.
Proof.
  induction ps as [| q ps IH]; [reflexivity |].
  unfold find_parcel in *. cbn [List.find fmap list_fmap List.filter].
  rewrite where_id. destruct (bool_decide (Number q = n)).
  - eexists. reflexivity.
  - exact IH.
Qed.

Lemma engine_Get_with_id next ps n :
  ParcelStore.Get n (store_of true next ps)
  = (default Parcel_zero (find_parcel n ps), None, store_of true next ps).
Proof.
  unfold ParcelStore.Get, db_QueryRow.
  change (db_Query ?q ?a ?d) with (Sql.Query sql_get a d).
  unfold Sql.Query. rewrite prepare_get.
  unfold Sql.query_stmt, store_of. rewrite lookup_singleton_eq.
  cbn [Sql.tcols Sql.trows].
  replace (Sql.unknown_column (parcel_columns true) _) with (@None error)
    by reflexivity.
  cbn [rows_data rows_Err Sql.where_cols].
  pose proof (select_by_id n ps
    (λ r, (λ c, default VNull (r !! c))
            <$> ["number"; "client"; "status"; "address"; "created_at"])) as H.
  destruct (find_parcel n ps) as [p |].
  - destruct H as [rest ->]. rewrite Scan_row_of. reflexivity.
  - rewrite H. reflexivity.
Qed.

(** * The store on any backend *)

(** A lookup that yields no row: [Get] reports the zero parcel and no
    error, and [NextStatus] goes on to [SetStatus] with the empty status. *)
Lemma Get_no_row `{Backend DB} (n : Z) (db db' : DB) :
  db_Query sql_get [VInt n] db = (Ok (mkRows [] None), db') →
  ParcelStore.Get n db = (Parcel_zero, None, db').
Proof.
  intros Hq. unfold ParcelStore.Get, db_QueryRow.
  change (db_Query _ _ db) with (db_Query sql_get [VInt n] db).
  rewrite Hq. reflexivity.
Qed.

Lemma NextStatus_no_row `{Backend DB} (n : Z) (db db' : DB) :
  db_Query sql_get [VInt n] db = (Ok (mkRows [] None), db') →
  ParcelService.NextStatus n db = ParcelStore.SetStatus n "" db'.
Proof.
  intros Hq. unfold ParcelService.NextStatus.
  rewrite (Get_no_row n db db' Hq). reflexivity.
Qed.

(** An error of the lookup other than [sql.ErrNoRows] is what [Get]
    returns. *)
Lemma Get_backend_error `{Backend DB} (n : Z) (db db' : DB) (e : error) :
  db_Query sql_get [VInt n] db = (Err e, db') →
  errors_Is e ErrNoRows = false →
  ParcelStore.Get n db = (Parcel_zero, Some e, db').
Proof.
  intros Hq He. unfold ParcelStore.Get, db_QueryRow.
  change (db_Query _ _ db) with (db_Query sql_get [VInt n] db).
  rewrite Hq, He. reflexivity.
Qed.

(** * The lifecycle on the relational backend *)

Lemma number_unique ps p q :
  NoDup (Number <$> ps) → p ∈ ps → q ∈ ps → Number p = Number q → p = q.
Proof.
  induction ps as [| r ps IH]; intros Hnd Hp Hq Heq.
  - inversion Hp.
  - rewrite fmap_cons in Hnd. apply NoDup_cons in Hnd as [Hr Hnd].
    apply elem_of_cons in Hp as [-> | Hp]; apply elem_of_cons in Hq as [-> | Hq].
    + reflexivity.
    + exfalso. apply Hr. rewrite Heq. by apply list_elem_of_fmap_2.
    + exfalso. apply Hr. rewrite <- Heq. by apply list_elem_of_fmap_2.
    + by apply IH.
Qed.

Lemma find_parcel_Some n ps p :
  find_parcel n ps = Some p → p ∈ ps ∧ Number p = n.
Proof.
  unfold find_parcel. intros H. apply List.find_some in H as [Hin Hn].
  split; [by apply list_elem_of_In | by apply bool_decide_eq_true in Hn].
Qed.

Lemma find_parcel_None n ps p :
  find_parcel n ps = None → p ∈ ps → Number p ≠ n.
Proof.
  unfold find_parcel. intros H Hin Hn.
  apply list_elem_of_In in Hin.
  pose proof (List.find_none _ _ H _ Hin) as Hf.
  cbv beta in Hf. by apply bool_decide_eq_false in Hf.
Qed.

Lemma forward_refl s : forward s s.
Proof. by left. Qed.

(** Rewriting the status of the parcels numbered [n] keeps the store
    well formed and moves every parcel forward, as soon as it does so for the
    parcels numbered [n]. *)
Lemma with_status_step next ps n s :
  store_inv next ps →
  (∀ q, q ∈ ps → Number q = n →
        lifecycle_status s ∧ forward (Status q) s) →
  store_inv next (with_status n s <$> ps)
  ∧ ∀ p p', p ∈ ps → p' ∈ with_status n s <$> ps →
            Number p' = Number p → forward (Status p) (Status p').
Proof.
  intros [Hall Hnd] Hn.
  assert (Hnum : ∀ q, Number (with_status n s q) = Number q).
  { intros q. unfold with_status. by destruct (decide _). }
  split; [split |].
  - apply Forall_fmap. rewrite Forall_forall in Hall |- *.
    intros q Hq. cbn [compose]. rewrite Hnum.
    destruct (Hall q Hq) as [Hlt Hst]. split; [done |].
    unfold with_status. destruct (decide (Number q = n)) as [Hqn |]; [| done].
    cbn [Status]. by apply (Hn q).
  - rewrite <- list_fmap_compose.
    rewrite (list_fmap_ext _ Number ps); [done |]. intros _ q _. apply Hnum.
  - intros p p' Hp Hp' Heq.
    apply list_elem_of_fmap in Hp' as (q & -> & Hq).
    rewrite Hnum in Heq.
    assert (q = p) as -> by (by apply (number_unique ps)).
    unfold with_status. destruct (decide (Number p = n)) as [Hpn |].
    + cbn [Status]. by apply (Hn p).
    + apply forward_refl.
Qed.

Lemma unchanged_step next ps :
  store_inv next ps →
  store_inv next ps
  ∧ ∀ p p', p ∈ ps → p' ∈ ps → Number p' = Number p →
            forward (Status p) (Status p').
Proof.
  intros Hinv. split; [done |]. intros p p' Hp Hp' Heq.
  destruct Hinv as [_ Hnd].
  assert (p' = p) as -> by (by apply (number_unique ps)).
  apply forward_refl.
Qed.

Lemma engine_Register b next ps now client address :
  ParcelService.Register now client address (store_of b next ps)
  = (mkParcel next client ParcelStatusRegistered address now, None,
     store_of b (next + 1)
       (ps ++ [mkParcel next client ParcelStatusRegistered address now])).
Proof. unfold ParcelService.Register. rewrite engine_Add. reflexivity. Qed.

Lemma engine_NextStatus_no_id next ps n :
  ParcelService.NextStatus n (store_of false next ps)
  = (Some (errorString "no such column: id"), store_of false next ps).
Proof. unfold ParcelService.NextStatus. rewrite engine_Get_no_id. reflexivity. Qed.

Lemma engine_NextStatus_with_id next ps n :
  ParcelService.NextStatus n (store_of true next ps)
  = match ParcelService.nextStatus_of
            (Status (default Parcel_zero (find_parcel n ps))) with
    | None => (None, store_of true next ps)
    | Some s => (None, store_of true next (with_status n s <$> ps))
    end.
Proof.
  unfold ParcelService.NextStatus. rewrite engine_Get_with_id.
  destruct (ParcelService.nextStatus_of _); [apply engine_SetStatus | reflexivity].
Qed.

Lemma register_step next ps now client address :
  store_inv next ps →
  let p0 := mkParcel next client ParcelStatusRegistered address now in
  store_inv (next + 1) (ps ++ [p0])%list
  ∧ ∀ p p', p ∈ ps → p' ∈ (ps ++ [p0])%list → Number p' = Number p →
            forward (Status p) (Status p').
Proof.
  intros [Hall Hnd] p0. rewrite Forall_forall in Hall.
  split; [split |].
  - apply Forall_app. split.
    + apply Forall_forall. intros q Hq. destruct (Hall q Hq). split; [lia | done].
    + apply Forall_singleton. cbn. split; [lia | by left].
  - rewrite fmap_app. apply NoDup_app. split; [done | split].
    + intros x Hx Hx'. apply list_elem_of_fmap in Hx as (q & -> & Hq).
      apply list_elem_of_singleton in Hx'. cbn in Hx'.
      destruct (Hall q Hq). lia.
    + apply NoDup_singleton.
  - intros p p' Hp Hp' Heq. apply elem_of_app in Hp' as [Hp' | Hp'].
    + assert (p' = p) as -> by (by apply (number_unique ps)).
      apply forward_refl.
    + apply list_elem_of_singleton in Hp' as ->. cbn in Heq.
      destruct (Hall p Hp). lia.
Qed.

Lemma with_address_step next ps n a :
  store_inv next ps →
  store_inv next (with_address n a <$> ps)
  ∧ ∀ p p', p ∈ ps → p' ∈ with_address n a <$> ps →
            Number p' = Number p → forward (Status p) (Status p').
Proof.
  intros [Hall Hnd].
  assert (Hnum : ∀ q, Number (with_address n a q) = Number q).
  { intros q. unfold with_address. by destruct (decide _). }
  assert (Hst : ∀ q, Status (with_address n a q) = Status q).
  { intros q. unfold with_address. by destruct (decide _). }
  split; [split |].
  - apply Forall_fmap. rewrite Forall_forall in Hall |- *.
    intros q Hq. cbn [compose]. rewrite Hnum, Hst. by apply Hall.
  - rewrite <- list_fmap_compose.
    rewrite (list_fmap_ext _ Number ps); [done |]. intros _ q _. apply Hnum.
  - intros p p' Hp Hp' Heq.
    apply list_elem_of_fmap in Hp' as (q & -> & Hq).
    rewrite Hnum in Heq.
    assert (q = p) as -> by (by apply (number_unique ps)).
    rewrite Hst. apply forward_refl.
Qed.

Lemma nextStatus_of_lifecycle s :
  lifecycle_status s →
  match ParcelService.nextStatus_of s with
  | None => s = ParcelStatusDelivered
  | Some s' => lifecycle_status s' ∧ forward s s' ∧ s' ≠ s
  end.
Proof.
  intros [-> | [-> | ->]]; vm_compute; [| | done].
  - split; [by right; left | split; [by right; left | done]].
  - split; [by right; right | split; [by right; right | done]].
Qed.

(** One operation of the service on a well-formed store. *)
Lemma run_step b next ps a :
  store_inv next ps →
  ∃ next' ps',
    run a (store_of b next ps) = store_of b next' ps'
    ∧ store_inv next' ps'
    ∧ ∀ p p', p ∈ ps → p' ∈ ps' → Number p' = Number p →
              forward (Status p) (Status p').
Proof.
  intros Hinv. destruct a as [now client address | n | n address | n];
    unfold run.
  - rewrite engine_Register. do 2 eexists. split; [reflexivity |].
    by apply register_step.
  - destruct b.
    + rewrite engine_NextStatus_with_id.
      destruct (find_parcel n ps) as [p0 |] eqn:Hfind.
      * apply find_parcel_Some in Hfind as [Hp0 Hn0].
        assert (Hlife : lifecycle_status (Status p0)).
        { destruct Hinv as [Hall _]. rewrite Forall_forall in Hall.
          by apply Hall. }
        apply nextStatus_of_lifecycle in Hlife. cbn [default from_option id].
        destruct (ParcelService.nextStatus_of (Status p0)) as [s |].
        -- do 2 eexists. split; [reflexivity |].
           apply with_status_step; [done |]. intros q Hq Hqn.
           assert (q = p0) as ->.
           { destruct Hinv as [_ Hnd]. apply (number_unique ps); congruence. }
           by destruct Hlife as (? & ? & _).
        -- do 2 eexists. split; [reflexivity |]. by apply unchanged_step.
      * cbn [default from_option id]. change (ParcelService.nextStatus_of (Status Parcel_zero))
          with (Some "").
        do 2 eexists. split; [reflexivity |].
        apply with_status_step; [done |]. intros q Hq Hqn.
        by destruct (find_parcel_None n ps q Hfind Hq).
    + rewrite engine_NextStatus_no_id. do 2 eexists.
      split; [reflexivity |]. by apply unchanged_step.
  - unfold ParcelService.ChangeAddress. rewrite engine_SetAddress.
    do 2 eexists. split; [reflexivity |]. by apply with_address_step.
  - unfold ParcelService.Delete. rewrite engine_Delete.
    do 2 eexists. split; [reflexivity |]. by apply unchanged_step.
Qed.

(** On the table that also has the column [id], three calls of
    [NextStatus] take a registered parcel to sent, to delivered, and leave
    it delivered. *)
Example lifecycle_with_id :
  let db1 := run (DoRegister "t" 7 "A") (fresh_store true) in
  let db2 := run (DoNextStatus 1) db1 in
  let db3 := run (DoNextStatus 1) db2 in
  db1 = store_of true 2 [mkParcel 1 7 "registered" "A" "t"]
  ∧ db2 = store_of true 2 [mkParcel 1 7 "sent" "A" "t"]
  ∧ db3 = store_of true 2 [mkParcel 1 7 "delivered" "A" "t"]
  ∧ run (DoNextStatus 1) db3 = db3.
Proof. cbv zeta. repeat split; vm_compute; reflexivity. Qed.

Lemma reachable_inv b db :
  reachable b db → ∃ next ps, db = store_of b next ps ∧ store_inv next ps.
Proof.
  induction 1 as [| a db _ (next & ps & -> & Hinv)].
  - exists 1, []. split; [reflexivity |]. split; [constructor | constructor].
  - destruct (run_step b next ps a Hinv) as (next' & ps' & Hrun & Hinv' & _).
    by exists next', ps'.
Qed.

(** * The claims *)

Lemma registered_store_eq :
  registered_store = store_of false 2 [parcel1 "registered" "A"].
Proof. vm_compute. reflexivity. Qed.

Lemma sent_store_eq : sent_store = store_of false 2 [parcel1 "sent" "A"].
Proof. vm_compute. reflexivity. Qed.

(** C1 (what the code does): [ChangeAddress] hands the call to [SetAddress],
    whose UPDATE selects on the number alone.  On every store it rewrites the
    address of the parcels with that number whatever their status and returns
    no error; on the store that holds parcel 1 with status sent and address
    A, [ChangeAddress 1 B] leaves the parcel sent with address B. *)
Theorem ChangeAddress_no_status_guard :
  (∀ b next ps n a,
     ParcelService.ChangeAddress n a (store_of b next ps)
     = (None, store_of b next (with_address n a <$> ps)))
  ∧ sent_store = store_of false 2 [parcel1 "sent" "A"]
  ∧ ParcelService.ChangeAddress 1 "B" sent_store
    = (None, store_of false 2 [parcel1 "sent" "B"]).
Proof.
  split; [| split].
  - intros. apply engine_SetAddress.
  - apply sent_store_eq.
  - rewrite sent_store_eq. unfold ParcelService.ChangeAddress.
    rewrite engine_SetAddress. reflexivity.
Qed.

(** C2 (what the code does): the DELETE statement compares [status] with the
    bare word [registered], which the statement's grammar reads as a column.
    The table has no such column, so on every store [Delete] returns the
    backend's error and removes nothing; on the store that holds the
    registered parcel 1, [Delete 1] returns that error and the parcel stays. *)
Theorem Delete_fails_on_registered :
  Sql.parse sql_delete
  = Some (Sql.Delete "parcel"
            [(Sql.Col "number", Sql.Placeholder 0);
             (Sql.Col "status", Sql.Col "registered")])
  ∧ (∀ b next ps n,
       ParcelService.Delete n (store_of b next ps)
       = (Some (errorString "no such column: registered"),
          store_of b next ps))
  ∧ registered_store = store_of false 2 [parcel1 "registered" "A"]
  ∧ ParcelService.Delete 1 registered_store
    = (Some (errorString "no such column: registered"), registered_store).
Proof.
  split; [reflexivity | split; [| split]].
  - intros. apply engine_Delete.
  - apply registered_store_eq.
  - rewrite registered_store_eq. apply engine_Delete.
Qed.

(** C3 (what the code does): [GetByClient] selects from a table named
    [percel], not from [parcel], the table [Add] inserts into.  On every
    store made of table [parcel] it returns the backend's error and no
    parcel, also right after a parcel of that client was registered; on a
    store that has both tables, a parcel registered for client 7 goes to
    [parcel] and [GetByClient 7] answers with the empty list of [percel]. *)
Theorem GetByClient_reads_other_table :
  (∀ b next ps c,
     ParcelStore.GetByClient c (store_of b next ps)
     = ([], Some (errorString "no such table: percel"), store_of b next ps))
  ∧ ParcelStore.GetByClient 7 registered_store
    = ([], Some (errorString "no such table: percel"), registered_store)
  ∧ (ParcelService.Register "2024-05-01T10:00:00Z" 7 "A" two_table_store).1
    = (parcel1 "registered" "A", None)
  ∧ (ParcelStore.GetByClient 7
       (ParcelService.Register "2024-05-01T10:00:00Z" 7 "A"
          two_table_store).2).1
    = ([], None).
Proof.
  split; [| split; [| split]].
  - intros. apply engine_GetByClient.
  - rewrite registered_store_eq. apply engine_GetByClient.
  - vm_compute. reflexivity.
  - vm_compute. reflexivity.
Qed.

(** C4 (what the code does): for a number that no row has, [NextStatus] on
    the empty store of Section 6 returns the error of [Get]'s lookup by the
    column [id]; and on a backend that answers the lookup with no rows,
    [NextStatus] leaves its switch with the empty next status and still calls
    [SetStatus]: the backend receives the UPDATE with status "" for that
    number. *)
Theorem NextStatus_on_absent_parcel :
  ParcelService.NextStatus 5 empty_store
  = (Some (errorString "no such column: id"), empty_store)
  ∧ ParcelService.NextStatus 5 no_row_backend
    = (None,
       Script.mkState []
         [(sql_get, [VInt 5]); (sql_set_status, [VText ""; VInt 5])]).
Proof. split; [apply engine_NextStatus_no_id | reflexivity]. Qed.

(** C5 (what the code does): on every store of Section 6 [NextStatus] stops
    at [Get], whose lookup names the column [id] that the table does not
    have: it returns the backend's error and the store is unchanged.  On the
    store that holds the registered parcel 1, [NextStatus 1] returns that
    error and the parcel stays registered. *)
Theorem NextStatus_fails_on_registered :
  (∀ next ps n,
     ParcelService.NextStatus n (store_of false next ps)
     = (Some (errorString "no such column: id"), store_of false next ps))
  ∧ registered_store = store_of false 2 [parcel1 "registered" "A"]
  ∧ ParcelService.NextStatus 1 registered_store
    = (Some (errorString "no such column: id"), registered_store).
Proof.
  split; [| split].
  - intros. apply engine_NextStatus_no_id.
  - apply registered_store_eq.
  - rewrite registered_store_eq. apply engine_NextStatus_no_id.
Qed.

(** C6: in every store reachable from the empty store by operations of the
    service (whether or not the table also has the column [id]), the stored
    parcels have pairwise different numbers, each status is one of
    registered, sent, delivered, and one more operation leaves the status of
    each parcel as it is or moves it one step along registered, sent,
    delivered. *)
Theorem status_moves_forward (with_id : bool) (db : gmap string Sql.Table) :
  reachable with_id db →
  ∃ next ps,
    db = store_of with_id next ps
    ∧ NoDup (Number <$> ps)
    ∧ (∀ p, p ∈ ps → lifecycle_status (Status p))
    ∧ ∀ a, ∃ next' ps',
        run a db = store_of with_id next' ps'
        ∧ ∀ p p', p ∈ ps → p' ∈ ps' → Number p' = Number p →
                  forward (Status p) (Status p').
Proof.
  intros Hreach.
  destruct (reachable_inv _ _ Hreach) as (next & ps & -> & Hinv).
  exists next, ps. split; [reflexivity |].
  split; [by destruct Hinv |]. split.
  - intros p Hp. destruct Hinv as [Hall _]. rewrite Forall_forall in Hall.
    by apply Hall.
  - intros a.
    destruct (run_step with_id next ps a Hinv) as (next' & ps' & Hrun & _ & Hfw).
    by exists next', ps'.
Qed.

Lemma status_moves_forward_witness :
  reachable true
    (run (DoNextStatus 1) (run (DoRegister "t" 7 "A") (fresh_store true)))
  ∧ ∃ next ps,
      run (DoNextStatus 1) (run (DoRegister "t" 7 "A") (fresh_store true))
      = store_of true next ps
      ∧ NoDup (Number <$> ps)
      ∧ (∀ p, p ∈ ps → lifecycle_status (Status p))
      ∧ ∀ a, ∃ next' ps',
          run a
            (run (DoNextStatus 1)
               (run (DoRegister "t" 7 "A") (fresh_store true)))
          = store_of true next' ps'
          ∧ ∀ p p', p ∈ ps → p' ∈ ps' → Number p' = Number p →
                    forward (Status p) (Status p').
Proof.
  split.
  - do 2 apply reach_step. apply reach_fresh.
  - apply status_moves_forward. do 2 apply reach_step. apply reach_fresh.
Defined.

(** C7 (what the code does): [Get] looks a parcel up by the column [id],
    while the table of Section 6 calls its key [number]: on every such store
    and for every number, [Get] returns the zero parcel together with the
    backend's error, also for the number of a stored parcel. *)
Theorem Get_fails_on_stored_parcel :
  (∀ next ps n,
     ParcelStore.Get n (store_of false next ps)
     = (Parcel_zero, Some (errorString "no such column: id"),
        store_of false next ps))
  ∧ registered_store = store_of false 2 [parcel1 "registered" "A"]
  ∧ ParcelStore.Get 1 registered_store
    = (Parcel_zero, Some (errorString "no such column: id"),
       registered_store).
Proof.
  split; [| split].
  - intros. apply engine_Get_no_id.
  - apply registered_store_eq.
  - rewrite registered_store_eq. apply engine_Get_no_id.
Qed.

(** C8: for every backend and every record, when [Add] returns no error the
    backend ran the INSERT with the record's client, status, address and
    created_at, and the caller's record afterwards is the record it was with
    [Number] set to the identifier the backend generated, every other field
    as before; when [Add] returns an error the caller's record is the record
    it was.  On the relational backend [Add] succeeds and appends exactly
    that row, numbered with the table's next identifier. *)
Theorem Add_frame :
  (∀ DB (B : Backend DB) (p : Parcel) (db db' : DB) err p',
     ParcelStore.Add (Some p) db = (err, p', db') →
     match err with
     | None =>
         ∃ id res,
           db_Exec sql_insert (insert_args p) db = (Ok res, db')
           ∧ LastInsertId res = Ok id
           ∧ p' = Some (mkParcel id (Client p) (Status p) (Address p)
                          (CreatedAt p))
     | Some e => p' = Some p
     end)
  ∧ (∀ b next ps p,
       ParcelStore.Add (Some p) (store_of b next ps)
       = (None,
          Some (mkParcel next (Client p) (Status p) (Address p) (CreatedAt p)),
          store_of b (next + 1)
            (ps ++ [mkParcel next (Client p) (Status p) (Address p)
                      (CreatedAt p)]))).
Proof.
  split.
  - intros DB B p db db' err p'. unfold ParcelStore.Add.
    change (db_Exec _ _ db) with (db_Exec sql_insert (insert_args p) db).
    destruct (db_Exec sql_insert (insert_args p) db) as [[res | e] db1].
    + destruct (LastInsertId res) as [id | e] eqn:Hid.
      * intros [= <- <- <-]. by exists id, res.
      * by intros [= <- <- <-].
    + by intros [= <- <- <-].
  - intros. apply engine_Add.
Qed.

Lemma Add_frame_witness :
  ParcelStore.Add (Some (mkParcel 0 7 "registered" "A" "t")) empty_store
    = (None, Some (mkParcel 1 7 "registered" "A" "t"),
       store_of false 2 [mkParcel 1 7 "registered" "A" "t"])
  ∧ (∃ id res,
       db_Exec sql_insert (insert_args (mkParcel 0 7 "registered" "A" "t"))
         empty_store
       = (Ok res, store_of false 2 [mkParcel 1 7 "registered" "A" "t"])
       ∧ LastInsertId res = Ok id
       ∧ Some (mkParcel 1 7 "registered" "A" "t")
         = Some (mkParcel id 7 "registered" "A" "t")).
Proof.
  split.
  - vm_compute. reflexivity.
  - apply (proj1 Add_frame _ _ (mkParcel 0 7 "registered" "A" "t")
             empty_store _ None).
    vm_compute. reflexivity.
Defined.

(** C9: for every backend, [Add] of a nil pointer returns the error
    "gotten pointer is equal to nil" and leaves the backend as it was, no
    call made; and an error of the backend during the insert, from [Exec] or
    from [LastInsertId], is the error [Add] returns, the caller's record
    untouched. *)
Theorem Add_errors :
  ∀ DB (B : Backend DB) (db : DB),
    ParcelStore.Add None db
    = (Some (errors_New "gotten pointer is equal to nil"), None, db)
    ∧ (∀ p e db',
         db_Exec sql_insert (insert_args p) db = (Err e, db') →
         ParcelStore.Add (Some p) db = (Some e, Some p, db'))
    ∧ (∀ p res e db',
         db_Exec sql_insert (insert_args p) db = (Ok res, db') →
         LastInsertId res = Err e →
         ParcelStore.Add (Some p) db = (Some e, Some p, db')).
Proof.
  intros DB B db. split; [reflexivity | split].
  - intros p e db' H. unfold ParcelStore.Add.
    change (db_Exec _ _ db) with (db_Exec sql_insert (insert_args p) db).
    by rewrite H.
  - intros p res e db' H Hid. unfold ParcelStore.Add.
    change (db_Exec _ _ db) with (db_Exec sql_insert (insert_args p) db).
    by rewrite H, Hid.
Qed.

Lemma Add_errors_witness :
  (db_Exec sql_insert (insert_args (mkParcel 0 7 "registered" "A" "t"))
     failing_backend
   = (Err (errorString "database error"),
      Script.mkState []
        [(sql_insert, insert_args (mkParcel 0 7 "registered" "A" "t"))])
   ∧ ParcelStore.Add (Some (mkParcel 0 7 "registered" "A" "t")) failing_backend
     = (Some (errorString "database error"),
        Some (mkParcel 0 7 "registered" "A" "t"),
        Script.mkState []
          [(sql_insert, insert_args (mkParcel 0 7 "registered" "A" "t"))]))
  ∧ (db_Exec sql_insert (insert_args (mkParcel 0 7 "registered" "A" "t"))
       (Script.mkState
          [Script.ExecReply
             (Ok (mkResult (Err (errorString "no insert id")) 1))] [])
     = (Ok (mkResult (Err (errorString "no insert id")) 1),
        Script.mkState []
          [(sql_insert, insert_args (mkParcel 0 7 "registered" "A" "t"))])
     ∧ ParcelStore.Add (Some (mkParcel 0 7 "registered" "A" "t"))
         (Script.mkState
            [Script.ExecReply
               (Ok (mkResult (Err (errorString "no insert id")) 1))] [])
       = (Some (errorString "no insert id"),
          Some (mkParcel 0 7 "registered" "A" "t"),
          Script.mkState []
            [(sql_insert, insert_args (mkParcel 0 7 "registered" "A" "t"))])).
Proof.
  split; split.
  - reflexivity.
  - apply (proj1 (proj2 (Add_errors _ _ failing_backend))). reflexivity.
  - reflexivity.
  - eapply (proj2 (proj2 (Add_errors _ _ _))); reflexivity.
Defined.

(** C10: for every backend, when [Add] fails [Register] returns the zero
    parcel together with the error of [Add], and the zero parcel is not the
    record [Register] had built (status registered) before the call. *)
Theorem Register_returns_zero_on_failure :
  ∀ DB (B : Backend DB) now client address (db db' : DB) e p',
    ParcelStore.Add
      (Some (mkParcel 0 client ParcelStatusRegistered address now)) db
    = (Some e, p', db') →
    ParcelService.Register now client address db = (Parcel_zero, Some e, db')
    ∧ Parcel_zero ≠ mkParcel 0 client ParcelStatusRegistered address now.
Proof.
  intros DB B now client address db db' e p' H.
  unfold ParcelService.Register. rewrite H. split; [reflexivity | done].
Qed.

Lemma Register_returns_zero_on_failure_witness :
  ParcelStore.Add (Some (mkParcel 0 7 ParcelStatusRegistered "A" "t"))
    failing_backend
  = (Some (errorString "database error"),
     Some (mkParcel 0 7 ParcelStatusRegistered "A" "t"),
     Script.mkState []
       [(sql_insert, insert_args (mkParcel 0 7 "registered" "A" "t"))])
  ∧ ParcelService.Register "t" 7 "A" failing_backend
    = (Parcel_zero, Some (errorString "database error"),
       Script.mkState []
         [(sql_insert, insert_args (mkParcel 0 7 "registered" "A" "t"))])
  ∧ Parcel_zero ≠ mkParcel 0 7 ParcelStatusRegistered "A" "t".
Proof.
  split; [reflexivity |].
  apply (Register_returns_zero_on_failure _ _ "t" 7 "A" failing_backend _ _
           (Some (mkParcel 0 7 ParcelStatusRegistered "A" "t"))).
  reflexivity.
Defined.

(** * Further properties *)

Lemma Get_state `{Backend DB} (n : Z) (db : DB) :
  (ParcelStore.Get n db).2 = (db_Query sql_get [VInt n] db).2.
Proof.
  unfold ParcelStore.Get, db_QueryRow.
  change (db_Query _ _ db) with (db_Query sql_get [VInt n] db).
  destruct (db_Query sql_get [VInt n] db) as [[rows | e] db'].
  - destruct (rows_data rows) as [| r ?].
    + cbn. by destruct (errors_Is _ _).
    + cbn. destruct (Scan_Parcel r); [done |]. by destruct (errors_Is _ _).
  - cbn. by destruct (errors_Is _ _).
Qed.

(** X1: on every backend, whenever [Get] returns an error the parcel it
    returns is the zero parcel, and the error neither is [sql.ErrNoRows] nor
    wraps it. *)
Theorem Get_error_shape :
  ∀ DB (B : Backend DB) (n : Z) (db : DB),
    match (ParcelStore.Get n db).1.2 with
    | Some e =>
        (ParcelStore.Get n db).1.1 = Parcel_zero
        ∧ errors_Is e ErrNoRows = false
    | None => True
    end.
Proof.
  intros DB B n db. unfold ParcelStore.Get.
  destruct (db_QueryRow _ _ db) as [[r | e] db'].
  - destruct (Scan_Parcel r) as [p | e]; [done |].
    by destruct (errors_Is e ErrNoRows) eqn:He.
  - by destruct (errors_Is e ErrNoRows) eqn:He.
Qed.

(** X2: on every backend, an error of the lookup that is [sql.ErrNoRows] or
    wraps it is not reported: [Get] returns the zero parcel and no error. *)
Theorem Get_swallows_wrapped_ErrNoRows :
  ∀ DB (B : Backend DB) (n : Z) (db db' : DB) (e : error),
    db_Query sql_get [VInt n] db = (Err e, db') →
    errors_Is e ErrNoRows = true →
    ParcelStore.Get n db = (Parcel_zero, None, db').
Proof.
  intros DB B n db db' e Hq He. unfold ParcelStore.Get, db_QueryRow.
  change (db_Query _ _ db) with (db_Query sql_get [VInt n] db).
  rewrite Hq, He. reflexivity.
Qed.

Lemma Get_swallows_wrapped_ErrNoRows_witness :
  (db_Query sql_get [VInt 101]
     (Script.mkState
        [Script.QueryReply (Err (wrapError "driver" ErrNoRows))] [])
   = (Err (wrapError "driver" ErrNoRows),
      Script.mkState [] [(sql_get, [VInt 101])])
   ∧ errors_Is (wrapError "driver" ErrNoRows) ErrNoRows = true)
  ∧ ParcelStore.Get 101
      (Script.mkState
         [Script.QueryReply (Err (wrapError "driver" ErrNoRows))] [])
    = (Parcel_zero, None, Script.mkState [] [(sql_get, [VInt 101])]).
Proof.
  split; [split; reflexivity |].
  apply (Get_swallows_wrapped_ErrNoRows _ _ 101 _ _
           (wrapError "driver" ErrNoRows)); reflexivity.
Defined.



Lemma row_of_client b p : row_of b p !! "client" = Some (VInt (Client p)).
Proof. destruct b; vm_compute; reflexivity. Qed.

Lemma where_client p c :
  Sql.eval_where [VInt c] [(Sql.Col "client", Sql.Placeholder 0)]
    (row_of false p)
  = bool_decide (Client p = c).
Proof.
  unfold Sql.eval_where, Sql.eval_expr. cbn [forallb fst snd].
  rewrite row_of_client. cbn [default lookup list_lookup Sql.sql_eq].
  rewrite andb_true_r. apply bool_decide_ext.
  split; [intros [= ->]; reflexivity | intros ->; reflexivity].
Qed.

Lemma filter_rows_by_client c qs :
  List.filter
    (Sql.eval_where [VInt c] [(Sql.Col "client", Sql.Placeholder 0)])
    (row_of false <$> qs)
  = row_of false <$> List.filter (λ p, bool_decide (Client p = c)) qs.
Proof.
  induction qs as [| q qs IH]; [reflexivity |].
  cbn [fmap list_fmap List.filter]. rewrite where_client.
  destruct (bool_decide (Client q = c)); cbn [fmap list_fmap];
    [f_equal |]; exact IH.
Qed.

Lemma scan_rows_of b qs : ∀ acc,
  ParcelStore.scan_rows
    ((λ r, (λ c, default VNull (r !! c))
             <$> ["number"; "client"; "status"; "address"; "created_at"])
       <$> (row_of b <$> qs)) acc
  = Ok (acc ++ qs)%list.
Proof.
  induction qs as [| q qs IH]; intros acc.
  - cbn. by rewrite app_nil_r.
  - cbn [fmap list_fmap ParcelStore.scan_rows].
    pose proof (Scan_row_of b q) as Hq. cbn [fmap list_fmap] in Hq.
    rewrite Hq. cbn [fmap] in IH. rewrite IH. by rewrite <- app_assoc.
Qed.

(** X4: on a store that has a table [percel] next to [parcel],
    [GetByClient] returns, without error and without changing the store,
    exactly the parcels of [percel] whose client is the one asked for, in
    insertion order, whatever [parcel] holds. *)
Theorem GetByClient_selects_from_percel :
  ∀ next ps next' qs client,
    ParcelStore.GetByClient client (store_with_percel next ps next' qs)
    = (List.filter (λ p, bool_decide (Client p = client)) qs, None,
       store_with_percel next ps next' qs).
Proof.
  intros next ps next' qs client. unfold ParcelStore.GetByClient.
  change (db_Query ?q ?a ?d) with (Sql.Query sql_get_by_client a d).
  unfold Sql.Query. rewrite prepare_get_by_client.
  unfold Sql.query_stmt, store_with_percel. rewrite lookup_insert_eq.
  cbn [Sql.tcols Sql.trows].
  replace (Sql.unknown_column (parcel_columns false) _) with (@None error)
    by reflexivity.
  cbn [rows_data rows_Err]. rewrite filter_rows_by_client, scan_rows_of.
  reflexivity.
Qed.

Lemma with_status_absent n s (ps : list Parcel) :
  (∀ p, p ∈ ps → Number p ≠ n) → with_status n s <$> ps = ps.
Proof.
  intros Hn. rewrite <- (list_fmap_id ps) at 2.
  apply list_fmap_ext. intros _ p Hp%list_elem_of_lookup_2.
  unfold with_status. by rewrite decide_False by (by apply Hn).
Qed.

Lemma with_address_absent n a (ps : list Parcel) :
  (∀ p, p ∈ ps → Number p ≠ n) → with_address n a <$> ps = ps.
Proof.
  intros Hn. rewrite <- (list_fmap_id ps) at 2.
  apply list_fmap_ext. intros _ p Hp%list_elem_of_lookup_2.
  unfold with_address. by rewrite decide_False by (by apply Hn).
Qed.

(** X5: on the relational backend [SetStatus] returns no error and writes
    the given text as the status of every parcel with the given number,
    whatever the text and whatever the status before; when no parcel has the
    number the store is unchanged. *)
Theorem SetStatus_unconditional :
  ∀ b next ps n s,
    ParcelStore.SetStatus n s (store_of b next ps)
    = (None, store_of b next (with_status n s <$> ps))
    ∧ ((∀ p, p ∈ ps → Number p ≠ n) →
       ParcelStore.SetStatus n s (store_of b next ps)
       = (None, store_of b next ps)).
Proof.
  intros b next ps n s. split; [apply engine_SetStatus |].
  intros Hn. rewrite engine_SetStatus. by rewrite with_status_absent.
Qed.

Lemma SetStatus_unconditional_witness :
  (∀ p, p ∈ [mkParcel 1 7 "delivered" "A" "t"] → Number p ≠ 2)
  ∧ ParcelStore.SetStatus 2 "sent"
      (store_of false 2 [mkParcel 1 7 "delivered" "A" "t"])
    = (None, store_of false 2 [mkParcel 1 7 "delivered" "A" "t"])
  ∧ ParcelStore.SetStatus 1 "registered"
      (store_of false 2 [mkParcel 1 7 "delivered" "A" "t"])
    = (None, store_of false 2 [mkParcel 1 7 "registered" "A" "t"]).
Proof.
  assert (H : ∀ p, p ∈ [mkParcel 1 7 "delivered" "A" "t"] → Number p ≠ 2).
  { intros p Hp. apply list_elem_of_singleton in Hp as ->. cbn. lia. }
  split; [exact H | split].
  - apply (proj2 (SetStatus_unconditional false 2 _ 2 "sent")). exact H.
  - rewrite (proj1 (SetStatus_unconditional false 2 _ 1 "registered")).
    reflexivity.
Defined.

(** X6: on the relational backend [ChangeAddress] for a number that no
    stored parcel has returns no error and leaves the store unchanged. *)
Theorem ChangeAddress_unknown_number :
  ∀ b next ps n a,
    (∀ p, p ∈ ps → Number p ≠ n) →
    ParcelService.ChangeAddress n a (store_of b next ps)
    = (None, store_of b next ps).
Proof.
  intros b next ps n a Hn. unfold ParcelService.ChangeAddress.
  rewrite engine_SetAddress. by rewrite with_address_absent.
Qed.

Lemma ChangeAddress_unknown_number_witness :
  (∀ p, p ∈ [mkParcel 1 7 "registered" "A" "t"] → Number p ≠ 999)
  ∧ ParcelService.ChangeAddress 999 "new address"
      (store_of false 2 [mkParcel 1 7 "registered" "A" "t"])
    = (None, store_of false 2 [mkParcel 1 7 "registered" "A" "t"]).
Proof.
  assert (H : ∀ p, p ∈ [mkParcel 1 7 "registered" "A" "t"] → Number p ≠ 999).
  { intros p Hp. apply list_elem_of_singleton in Hp as ->. cbn. lia. }
  split; [exact H |].
  apply ChangeAddress_unknown_number. exact H.
Defined.



(** The list of parcels after one operation of the service: one parcel
    more, the same list, or the list with the address or the status of the
    parcels of one number rewritten. *)
Lemma run_shape b next ps a :
  ∃ next' ps',
    run a (store_of b next ps) = store_of b next' ps'
    ∧ ((∃ now client address,
          a = DoRegister now client address ∧ next' = next + 1
          ∧ ps' = (ps ++ [mkParcel next client ParcelStatusRegistered
                            address now])%list)
       ∨ (next' = next ∧ ps' = ps)
       ∨ (∃ n address,
            a = DoChangeAddress n address ∧ next' = next
            ∧ ps' = with_address n address <$> ps)
       ∨ (∃ n s,
            a = DoNextStatus n ∧ next' = next
            ∧ ps' = with_status n s <$> ps)).
Proof.
  destruct a as [now client address | n | n address | n]; unfold run.
  - rewrite engine_Register. do 2 eexists. split; [reflexivity |].
    left. by exists now, client, address.
  - destruct b.
    + rewrite engine_NextStatus_with_id.
      destruct (ParcelService.nextStatus_of _) as [s |].
      * do 2 eexists. split; [reflexivity |]. do 3 right. by exists n, s.
      * do 2 eexists. split; [reflexivity |]. right. by left.
    + rewrite engine_NextStatus_no_id. do 2 eexists.
      split; [reflexivity |]. right. by left.
  - unfold ParcelService.ChangeAddress. rewrite engine_SetAddress.
    do 2 eexists. split; [reflexivity |]. do 2 right. left.
    by exists n, address.
  - unfold ParcelService.Delete. rewrite engine_Delete.
    do 2 eexists. split; [reflexivity |]. right. by left.
Qed.

(** X8: on the relational backend no operation of the service removes or
    reorders a stored parcel or changes its number, client or creation time,
    and the next identifier never decreases. *)
Theorem service_keeps_parcels :
  ∀ b next ps a,
    ∃ next' ps',
      run a (store_of b next ps) = store_of b next' ps'
      ∧ (next ≤ next')%Z
      ∧ (length ps ≤ length ps')%nat
      ∧ ∀ (i : nat) p,
          ps !! i = Some p →
          ∃ p', ps' !! i = Some p'
                ∧ Number p' = Number p ∧ Client p' = Client p
                ∧ CreatedAt p' = CreatedAt p.
Proof.
  intros b next ps a.
  destruct (run_shape b next ps a) as (next' & ps' & Hrun & Hshape).
  exists next', ps'. split; [exact Hrun |].
  destruct Hshape as [(now & c & ad & _ & -> & ->)
    | [[-> ->] | [(n & ad & _ & -> & ->) | (n & s & _ & -> & ->)]]].
  - split; [lia |]. split; [rewrite length_app; lia |].
    intros i p Hi. exists p. split; [| done].
    by apply lookup_app_l_Some.
  - split; [lia |]. split; [lia |]. intros i p Hi. by exists p.
  - split; [lia |]. split; [by rewrite length_fmap |].
    intros i p Hi. exists (with_address n ad p).
    split; [by rewrite list_lookup_fmap, Hi |].
    unfold with_address. by destruct (decide _).
  - split; [lia |]. split; [by rewrite length_fmap |].
    intros i p Hi. exists (with_status n s p).
    split; [by rewrite list_lookup_fmap, Hi |].
    unfold with_status. by destruct (decide _).
Qed.

Lemma service_keeps_parcels_witness :
  [mkParcel 1 7 "registered" "A" "t"] !! 0%nat
  = Some (mkParcel 1 7 "registered" "A" "t")
  ∧ ∃ next' ps' p',
      run (DoDelete 1) (store_of false 2 [mkParcel 1 7 "registered" "A" "t"])
      = store_of false next' ps'
      ∧ (2 ≤ next')%Z
      ∧ ps' !! 0%nat = Some p'
      ∧ Number p' = 1 ∧ Client p' = 7 ∧ CreatedAt p' = "t".
Proof.
  split; [reflexivity |].
  destruct (service_keeps_parcels false 2
              [mkParcel 1 7 "registered" "A" "t"] (DoDelete 1))
    as (next' & ps' & Hrun & Hnext & _ & Hall).
  destruct (Hall 0%nat (mkParcel 1 7 "registered" "A" "t") eq_refl)
    as (p' & Hp' & Hn & Hc & Ht).
  exists next', ps', p'. repeat (split; [assumption |]). assumption.
Defined.

(** X9: on the relational backend [Register] and [Delete] leave every
    stored parcel as it is; [ChangeAddress] never changes a status and
    changes the address only of parcels with the given number; [NextStatus]
    never changes an address and changes the status only of parcels with the
    given number. *)
Theorem service_frame :
  ∀ b next ps a (i : nat) p,
    ps !! i = Some p →
    ∃ next' ps' p',
      run a (store_of b next ps) = store_of b next' ps'
      ∧ ps' !! i = Some p'
      ∧ match a with
        | DoChangeAddress n _ =>
            Status p' = Status p ∧ (Number p ≠ n → Address p' = Address p)
        | DoNextStatus n =>
            Address p' = Address p ∧ (Number p ≠ n → Status p' = Status p)
        | _ => p' = p
        end.
Proof.
  intros b next ps a i p Hi.
  destruct (run_shape b next ps a) as (next' & ps' & Hrun & Hshape).
  exists next', ps'.
  destruct Hshape as [(now & c & ad & -> & -> & ->)
    | [[-> ->] | [(n & ad & -> & -> & ->) | (n & s & -> & -> & ->)]]].
  - exists p. split; [exact Hrun |]. split; [| done].
    by apply lookup_app_l_Some.
  - exists p. split; [exact Hrun |]. split; [done |].
    destruct a; done.
  - exists (with_address n ad p). split; [exact Hrun |].
    split; [by rewrite list_lookup_fmap, Hi |].
    unfold with_address. destruct (decide _); done.
  - exists (with_status n s p). split; [exact Hrun |].
    split; [by rewrite list_lookup_fmap, Hi |].
    unfold with_status. destruct (decide _); done.
Qed.

Lemma service_frame_witness :
  [mkParcel 1 7 "registered" "A" "t"; mkParcel 2 8 "sent" "B" "u"] !! 1%nat
  = Some (mkParcel 2 8 "sent" "B" "u")
  ∧ ∃ next' ps' p',
      run (DoChangeAddress 1 "C")
        (store_of false 3
           [mkParcel 1 7 "registered" "A" "t"; mkParcel 2 8 "sent" "B" "u"])
      = store_of false next' ps'
      ∧ ps' !! 1%nat = Some p'
      ∧ Status p' = "sent" ∧ Address p' = "B".
Proof.
  split; [reflexivity |].
  destruct (service_frame false 3
              [mkParcel 1 7 "registered" "A" "t"; mkParcel 2 8 "sent" "B" "u"]
              (DoChangeAddress 1 "C") 1%nat (mkParcel 2 8 "sent" "B" "u")
              eq_refl)
    as (next' & ps' & p' & Hrun & Hp' & Hst & Had).
  exists next', ps', p'. repeat (split; [assumption |]).
  apply Had. cbn. lia.
Defined.

(** X10: on every backend, when [Get] finds a parcel, [NextStatus] calls
    [SetStatus] with sent for a registered parcel and with delivered for a
    sent one, makes no further call for a delivered one, and calls
    [SetStatus] with the empty status when the status read is none of the
    three. *)
Theorem NextStatus_transitions :
  ∀ DB (B : Backend DB) (n : Z) (db db' : DB) (p : Parcel),
    ParcelStore.Get n db = (p, None, db') →
    (Status p = ParcelStatusRegistered →
     ParcelService.NextStatus n db
     = ParcelStore.SetStatus n ParcelStatusSent db')
    ∧ (Status p = ParcelStatusSent →
       ParcelService.NextStatus n db
       = ParcelStore.SetStatus n ParcelStatusDelivered db')
    ∧ (Status p = ParcelStatusDelivered →
       ParcelService.NextStatus n db = (None, db'))
    ∧ (¬ lifecycle_status (Status p) →
       ParcelService.NextStatus n db = ParcelStore.SetStatus n "" db').
Proof.
  intros DB B n db db' p HGet. unfold ParcelService.NextStatus.
  rewrite HGet. repeat split.
  - by intros ->.
  - by intros ->.
  - by intros ->.
  - intros Hnot. unfold ParcelService.nextStatus_of.
    destruct (decide (Status p = ParcelStatusRegistered)) as [H |];
      [exfalso; apply Hnot; by left |].
    destruct (decide (Status p = ParcelStatusSent)) as [H |];
      [exfalso; apply Hnot; by right; left |].
    destruct (decide (Status p = ParcelStatusDelivered)) as [H |];
      [exfalso; apply Hnot; by right; right |].
    reflexivity.
Qed.

(** X11: on the table that also has the column [id], [NextStatus] for a
    number that no stored parcel has returns no error and leaves the store
    unchanged. *)
Theorem NextStatus_unknown_number_with_id :
  ∀ next ps n,
    (∀ p, p ∈ ps → Number p ≠ n) →
    ParcelService.NextStatus n (store_of true next ps)
    = (None, store_of true next ps).
Proof.
  intros next ps n Hn. rewrite engine_NextStatus_with_id.
  assert (Hfind : find_parcel n ps = None).
  { destruct (find_parcel n ps) as [p |] eqn:Hf; [| done].
    apply find_parcel_Some in Hf as [Hp Hnp]. by destruct (Hn p Hp). }
  rewrite Hfind. cbn [default from_option id].
  change (ParcelService.nextStatus_of (Status Parcel_zero)) with (Some "").
  cbv iota. f_equal. f_equal.
  rewrite <- (list_fmap_id ps) at 2.
  apply list_fmap_ext. intros _ p Hp%list_elem_of_lookup_2.
  unfold with_status. by rewrite decide_False by (by apply Hn).
Qed.

(** The calls the scripted backend has received after one more call. *)
Lemma script_calls_Exec (s : Script.state) q a :
  Script.calls (Script.Exec q a s).2 = (Script.calls s ++ [(q, a)])%list.
Proof.
  unfold Script.Exec.
  destruct (Script.replies s) as [| [r | r] rest]; reflexivity.
Qed.

Lemma script_calls_Query (s : Script.state) q a :
  Script.calls (Script.Query q a s).2 = (Script.calls s ++ [(q, a)])%list.
Proof.
  unfold Script.Query.
  destruct (Script.replies s) as [| [r | r] rest]; reflexivity.
Qed.

Lemma script_calls_Get (s : Script.state) n :
  Script.calls (ParcelStore.Get n s).2
  = (Script.calls s ++ [(sql_get, [VInt n])])%list.
Proof. rewrite Get_state. apply script_calls_Query. Qed.

Lemma script_calls_SetStatus (s : Script.state) n st :
  Script.calls (ParcelStore.SetStatus n st s).2
  = (Script.calls s ++ [(sql_set_status, [VText st; VInt n])])%list.
Proof.
  unfold ParcelStore.SetStatus.
  change (db_Exec ?q ?a s) with (Script.Exec q a s).
  pose proof (script_calls_Exec s sql_set_status [VText st; VInt n]) as HE.
  by destruct (Script.Exec _ _ s) as [[res | e] s'].
Qed.

(** X12: every operation of the store with a record to work on makes
    exactly one call to the backend; the text of the statement is a constant
    of the operation and the caller's values travel as arguments only.
    [Add] of a nil pointer makes no call. *)
Theorem statements_are_parameterized :
  ∀ (s : Script.state) (n c : Z) (st ad : string) (p : Parcel),
    Script.calls (ParcelStore.Add (Some p) s).2
    = (Script.calls s ++ [(sql_insert, insert_args p)])%list
    ∧ Script.calls (ParcelStore.Add None s).2 = Script.calls s
    ∧ Script.calls (ParcelStore.Get n s).2
      = (Script.calls s ++ [(sql_get, [VInt n])])%list
    ∧ Script.calls (ParcelStore.GetByClient c s).2
      = (Script.calls s ++ [(sql_get_by_client, [VInt c])])%list
    ∧ Script.calls (ParcelStore.SetStatus n st s).2
      = (Script.calls s ++ [(sql_set_status, [VText st; VInt n])])%list
    ∧ Script.calls (ParcelStore.SetAddress n ad s).2
      = (Script.calls s ++ [(sql_set_address, [VText ad; VInt n])])%list
    ∧ Script.calls (ParcelStore.Delete n s).2
      = (Script.calls s ++ [(sql_delete, [VInt n])])%list.
Proof.
  intros s n c st ad p.
  pose proof (script_calls_Exec s) as HE.
  pose proof (script_calls_Query s) as HQ.
  repeat split.
  - unfold ParcelStore.Add.
    change (db_Exec ?q ?a s) with (Script.Exec q a s).
    specialize (HE sql_insert (insert_args p)).
    destruct (Script.Exec _ _ s) as [[res | e] s']; [| exact HE].
    by destruct (LastInsertId res).
  - apply script_calls_Get.
  - unfold ParcelStore.GetByClient.
    change (db_Query ?q ?a s) with (Script.Query q a s).
    specialize (HQ sql_get_by_client [VInt c]).
    destruct (Script.Query _ _ s) as [[rows | e] s']; [| exact HQ].
    destruct (ParcelStore.scan_rows _ _); [| exact HQ].
    by destruct (rows_Err rows).
  - apply script_calls_SetStatus.
  - unfold ParcelStore.SetAddress.
    change (db_Exec ?q ?a s) with (Script.Exec q a s).
    specialize (HE sql_set_address [VText ad; VInt n]).
    by destruct (Script.Exec _ _ s) as [[res | e] s'].
  - unfold ParcelStore.Delete.
    change (db_Exec ?q ?a s) with (Script.Exec q a s).
    specialize (HE sql_delete [VInt n]).
    by destruct (Script.Exec _ _ s) as [[res | e] s'].
Qed.

(** X13: [NextStatus] makes one call to the backend, the lookup, or two, the
    lookup and then the status update with sent, delivered or the empty
    status for the same number; it makes no other call. *)
Theorem NextStatus_at_most_two_calls :
  ∀ (s : Script.state) (n : Z),
    Script.calls (ParcelService.NextStatus n s).2
    = (Script.calls s ++ [(sql_get, [VInt n])])%list
    ∨ ∃ st,
        (st = ParcelStatusSent ∨ st = ParcelStatusDelivered ∨ st = "")
        ∧ Script.calls (ParcelService.NextStatus n s).2
          = (Script.calls s
             ++ [(sql_get, [VInt n]);
                 (sql_set_status, [VText st; VInt n])])%list.
Proof.
  intros s n. unfold ParcelService.NextStatus.
  pose proof (script_calls_Get s n) as HG.
  destruct (ParcelStore.Get n s) as [[p [e |]] s']; cbn [snd] in HG.
  - by left.
  - unfold ParcelService.nextStatus_of.
    assert (HS : ∀ st, Script.calls (ParcelStore.SetStatus n st s').2
      = (Script.calls s ++ [(sql_get, [VInt n]);
                            (sql_set_status, [VText st; VInt n])])%list).
    { intros st. rewrite script_calls_SetStatus, HG.
      by rewrite <- app_assoc. }
    destruct (decide (Status p = ParcelStatusRegistered));
      [right; exists ParcelStatusSent; split; [by left | apply HS] |].
    destruct (decide (Status p = ParcelStatusSent));
      [right; exists ParcelStatusDelivered; split;
         [by right; left | apply HS] |].
    destruct (decide (Status p = ParcelStatusDelivered)); [by left |].
    right. exists "". split; [by right; right | apply HS].
Qed.

Lemma find_parcel_app_new n (ps : list Parcel) p :
  (∀ q, q ∈ ps → Number q ≠ n) → Number p = n →
  find_parcel n (ps ++ [p]) = Some p.
Proof.
  intros Hn Hp. induction ps as [| q ps IH].
  - unfold find_parcel. cbn. by rewrite bool_decide_eq_true_2.
  - unfold find_parcel in *. cbn [app List.find].
    rewrite bool_decide_eq_false_2 by (apply Hn; by left).
    apply IH. intros q' Hq'. apply Hn. by right.
Qed.

(** X16: on the table that also has the column [id], with no stored parcel
    numbered with the next identifier, [Get] of the number that [Register]
    returned gives back the parcel [Register] returned. *)
Theorem Register_then_Get_with_id :
  ∀ next ps now client address,
    (∀ q, q ∈ ps → Number q ≠ next) →
    let r := ParcelService.Register now client address (store_of true next ps) in
    r.1.2 = None ∧ ParcelStore.Get (Number r.1.1) r.2 = (r.1.1, None, r.2).
Proof.
  intros next ps now client address Hn r. subst r.
  rewrite engine_Register. cbn [fst snd Number]. split; [done |].
  rewrite engine_Get_with_id.
  by rewrite (find_parcel_app_new next ps
    (mkParcel next client ParcelStatusRegistered address now) Hn eq_refl).
Qed.

Lemma NextStatus_transitions_witness :
  (ParcelStore.Get 101 (row_backend "registered")
   = (mkParcel 101 102 "registered" "A" "t", None,
      Script.mkState [Script.ExecReply (Ok (mkResult (Ok 0) 1))]
        [(sql_get, [VInt 101])])
   ∧ ParcelService.NextStatus 101 (row_backend "registered")
     = ParcelStore.SetStatus 101 ParcelStatusSent
         (Script.mkState [Script.ExecReply (Ok (mkResult (Ok 0) 1))]
            [(sql_get, [VInt 101])]))
  ∧ (ParcelStore.Get 101 (row_backend "sent")
     = (mkParcel 101 102 "sent" "A" "t", None,
        Script.mkState [Script.ExecReply (Ok (mkResult (Ok 0) 1))]
          [(sql_get, [VInt 101])])
     ∧ ParcelService.NextStatus 101 (row_backend "sent")
       = ParcelStore.SetStatus 101 ParcelStatusDelivered
           (Script.mkState [Script.ExecReply (Ok (mkResult (Ok 0) 1))]
              [(sql_get, [VInt 101])]))
  ∧ (ParcelStore.Get 101 (row_backend "delivered")
     = (mkParcel 101 102 "delivered" "A" "t", None,
        Script.mkState [Script.ExecReply (Ok (mkResult (Ok 0) 1))]
          [(sql_get, [VInt 101])])
     ∧ ParcelService.NextStatus 101 (row_backend "delivered")
       = (None,
          Script.mkState [Script.ExecReply (Ok (mkResult (Ok 0) 1))]
            [(sql_get, [VInt 101])]))
  ∧ (ParcelStore.Get 101 (row_backend "Registered")
     = (mkParcel 101 102 "Registered" "A" "t", None,
        Script.mkState [Script.ExecReply (Ok (mkResult (Ok 0) 1))]
          [(sql_get, [VInt 101])])
     ∧ ¬ lifecycle_status "Registered"
     ∧ ParcelService.NextStatus 101 (row_backend "Registered")
       = ParcelStore.SetStatus 101 ""
           (Script.mkState [Script.ExecReply (Ok (mkResult (Ok 0) 1))]
              [(sql_get, [VInt 101])])).
Proof.
  assert (Hnot : ¬ lifecycle_status "Registered").
  { intros [H | [H | H]]; discriminate H. }
  pose (s1 := Script.mkState [Script.ExecReply (Ok (mkResult (Ok 0) 1))]
                [(sql_get, [VInt 101])]).
  split; [| split; [| split]].
  - split; [reflexivity |].
    apply (proj1 (NextStatus_transitions Script.state Script.scripted 101 (row_backend "registered")
             s1 (mkParcel 101 102 "registered" "A" "t") eq_refl)).
    reflexivity.
  - split; [reflexivity |].
    apply (proj1 (proj2 (NextStatus_transitions Script.state Script.scripted 101 (row_backend "sent")
             s1 (mkParcel 101 102 "sent" "A" "t") eq_refl))).
    reflexivity.
  - split; [reflexivity |].
    apply (proj1 (proj2 (proj2 (NextStatus_transitions Script.state Script.scripted 101
             (row_backend "delivered") s1
             (mkParcel 101 102 "delivered" "A" "t") eq_refl)))).
    reflexivity.
  - split; [reflexivity | split; [exact Hnot |]].
    apply (proj2 (proj2 (proj2 (NextStatus_transitions Script.state Script.scripted 101
             (row_backend "Registered") s1
             (mkParcel 101 102 "Registered" "A" "t") eq_refl)))).
    exact Hnot.
Defined.

Lemma NextStatus_unknown_number_with_id_witness :
  (∀ p, p ∈ [mkParcel 1 7 "registered" "A" "t"] → Number p ≠ 5)
  ∧ ParcelService.NextStatus 5
      (store_of true 2 [mkParcel 1 7 "registered" "A" "t"])
    = (None, store_of true 2 [mkParcel 1 7 "registered" "A" "t"]).
Proof.
  assert (H : ∀ p, p ∈ [mkParcel 1 7 "registered" "A" "t"] → Number p ≠ 5).
  { intros p Hp. apply list_elem_of_singleton in Hp as ->. cbn. lia. }
  split; [exact H |]. apply NextStatus_unknown_number_with_id. exact H.
Defined.

Lemma Register_then_Get_with_id_witness :
  (∀ q, q ∈ [mkParcel 1 7 "sent" "A" "t"] → Number q ≠ 2)
  ∧ (ParcelService.Register "u" 8 "B"
       (store_of true 2 [mkParcel 1 7 "sent" "A" "t"])).1.2 = None
  ∧ ParcelStore.Get
      (Number (ParcelService.Register "u" 8 "B"
                 (store_of true 2 [mkParcel 1 7 "sent" "A" "t"])).1.1)
      (ParcelService.Register "u" 8 "B"
         (store_of true 2 [mkParcel 1 7 "sent" "A" "t"])).2
    = ((ParcelService.Register "u" 8 "B"
          (store_of true 2 [mkParcel 1 7 "sent" "A" "t"])).1.1, None,
       (ParcelService.Register "u" 8 "B"
          (store_of true 2 [mkParcel 1 7 "sent" "A" "t"])).2).
Proof.
  assert (H : ∀ q, q ∈ [mkParcel 1 7 "sent" "A" "t"] → Number q ≠ 2).
  { intros p Hp. apply list_elem_of_singleton in Hp as ->. cbn. lia. }
  split; [exact H |].
  exact (Register_then_Get_with_id 2 _ "u" 8 "B" H).
Defined.

(** X14: [main] never reaches its calls of [Delete].  On the table of
    Section 6 it registers the parcel, changes its address and stops at
    [NextStatus] with the error of [Get]; on the table that also has the
    column [id] it also marks the parcel sent and stops at the first listing
    with the error of [GetByClient]. *)
Theorem main_stops_before_Delete :
  ∀ next ps now1 now2,
    (∀ p, p ∈ ps → Number p ≠ next) →
    Main.main now1 now2 (store_of false next ps)
    = (Some (errorString "no such column: id"),
       store_of false (next + 1)
         (ps ++ [mkParcel next 1 ParcelStatusRegistered Main.newAddress
                   now1]))
    ∧ Main.main now1 now2 (store_of true next ps)
      = (Some (errorString "no such table: percel"),
         store_of true (next + 1)
           (ps ++ [mkParcel next 1 ParcelStatusSent Main.newAddress now1])).
Proof.
  intros next ps now1 now2 Hn.
  assert (Haddr : ∀ st,
    with_address next Main.newAddress
      <$> (ps ++ [mkParcel next 1 st Main.address now1])%list
    = (ps ++ [mkParcel next 1 st Main.newAddress now1])%list).
  { intros st. rewrite fmap_app, (with_address_absent next _ ps Hn).
    f_equal. cbn [fmap list_fmap]. unfold with_address. cbn [Number].
    by rewrite decide_True. }
  split; unfold Main.main; rewrite engine_Register; cbn [Number];
    unfold ParcelService.ChangeAddress; rewrite engine_SetAddress;
    cbn [Main.and_then]; rewrite Haddr.
  - rewrite engine_NextStatus_no_id. reflexivity.
  - rewrite engine_NextStatus_with_id.
    rewrite (find_parcel_app_new next ps
      (mkParcel next 1 ParcelStatusRegistered Main.newAddress now1) Hn eq_refl).
    cbn [default from_option id Status].
    change (ParcelService.nextStatus_of ParcelStatusRegistered)
      with (Some ParcelStatusSent).
    cbv iota. cbn [Main.and_then].
    rewrite fmap_app, (with_status_absent next _ ps Hn).
    cbn [fmap list_fmap]. unfold with_status at 1. cbn [Number].
    rewrite decide_True by done. cbn [Client Address CreatedAt].
    unfold ParcelService.PrintClientParcels. rewrite engine_GetByClient.
    reflexivity.
Qed.

Lemma main_stops_before_Delete_witness :
  (∀ p : Parcel, p ∈ [] → Number p ≠ 1)
  ∧ Main.main "t" "u" empty_store
    = (Some (errorString "no such column: id"),
       store_of false 2
         [mkParcel 1 1 ParcelStatusRegistered Main.newAddress "t"])
  ∧ Main.main "t" "u" (fresh_store true)
    = (Some (errorString "no such table: percel"),
       store_of true 2 [mkParcel 1 1 ParcelStatusSent Main.newAddress "t"]).
Proof.
  assert (H : ∀ p : Parcel, p ∈ [] → Number p ≠ 1).
  { intros p Hp. by apply not_elem_of_nil in Hp. }
  split; [exact H |].
  exact (main_stops_before_Delete 1 [] "t" "u" H).
Defined.

(** X15: [setDefault] leaves the environment as it is when the variable has
    a non-empty value, never touches another variable, gives the variable
    the default when it is unset or empty and [os.Setenv] accepts the pair,
    and a second call with the same arguments changes nothing more. *)
Theorem setDefault_keeps_set_variables :
  ∀ key value env,
    (Env.Getenv key env ≠ "" → Env.setDefault key value env = env)
    ∧ (∀ k, k ≠ key →
         Env.Getenv k (Env.setDefault key value env) = Env.Getenv k env)
    ∧ (Env.Getenv key env = "" → (Env.Setenv key value env).1 = None →
       Env.Getenv key (Env.setDefault key value env) = value)
    ∧ Env.setDefault key value (Env.setDefault key value env)
      = Env.setDefault key value env.
Proof.
  intros key value env.
  assert (Hframe : ∀ k, k ≠ key →
    Env.Getenv k (Env.setDefault key value env) = Env.Getenv k env).
  { intros k Hk. unfold Env.setDefault, Env.Setenv.
    destruct (decide (Env.Getenv key env = "")); [| done].
    destruct (decide (key = "")); [done |].
    destruct (_ || _); [done |]. cbn [snd]. unfold Env.Getenv.
    by rewrite lookup_insert_ne. }
  assert (Hset : Env.Getenv key env = "" →
    (Env.Setenv key value env).1 = None →
    Env.setDefault key value env = <[key := value]> env).
  { intros He Hok. unfold Env.setDefault. rewrite decide_True by done.
    unfold Env.Setenv in *. destruct (decide (key = "")); [done |].
    by destruct (_ || _). }
  split; [| split; [exact Hframe | split]].
  - intros Hne. unfold Env.setDefault. by rewrite decide_False.
  - intros He Hok. rewrite (Hset He Hok). unfold Env.Getenv.
    by rewrite lookup_insert_eq.
  - destruct (decide (Env.Getenv key env = "")) as [He | He].
    + destruct (decide ((Env.Setenv key value env).1 = None)) as [Hok | Hok].
      2: { assert (Hsame : Env.setDefault key value env = env).
           { unfold Env.setDefault. rewrite decide_True by done.
             unfold Env.Setenv in *. destruct (decide (key = "")); [done |].
             by destruct (_ || _). }
           by rewrite !Hsame. }
      * rewrite (Hset He Hok). unfold Env.setDefault at 1.
        destruct (decide (Env.Getenv key (<[key:=value]> env) = ""))
          as [Hv |]; [| done].
        unfold Env.Setenv in *. destruct (decide (key = "")); [done |].
        destruct (_ || _); [done |]. cbn [snd]. by rewrite insert_insert_eq.
    + assert (Hsame : Env.setDefault key value env = env).
      { unfold Env.setDefault. by rewrite decide_False. }
      by rewrite !Hsame.
Qed.

Lemma setDefault_keeps_set_variables_witness :
  (Env.Getenv "DB_DRIVER" {[ "DB_DRIVER" := "sqlite" ]} ≠ ""
   ∧ Env.setDefault "DB_DRIVER" "postgres" {[ "DB_DRIVER" := "sqlite" ]}
     = {[ "DB_DRIVER" := "sqlite" ]})
  ∧ ("DB_DRIVER" ≠ "DB_DNS"
     ∧ Env.Getenv "DB_DRIVER"
         (Env.setDefault "DB_DNS" "example.db" {[ "DB_DRIVER" := "sqlite" ]})
       = Env.Getenv "DB_DRIVER" {[ "DB_DRIVER" := "sqlite" ]})
  ∧ (Env.Getenv "DB_DNS" {[ "DB_DNS" := "" ]} = ""
     ∧ (Env.Setenv "DB_DNS" "example.db" {[ "DB_DNS" := "" ]}).1 = None
     ∧ Env.Getenv "DB_DNS"
         (Env.setDefault "DB_DNS" "example.db" {[ "DB_DNS" := "" ]})
       = "example.db").
Proof.
  assert (H1 : Env.Getenv "DB_DRIVER" {[ "DB_DRIVER" := "sqlite" ]} ≠ "").
  { vm_compute. discriminate. }
  assert (H2 : "DB_DRIVER" ≠ "DB_DNS") by discriminate.
  split; [split; [exact H1 |] | split; [split; [exact H2 |] |]].
  - exact (proj1 (setDefault_keeps_set_variables "DB_DRIVER" "postgres"
                    {[ "DB_DRIVER" := "sqlite" ]}) H1).
  - exact (proj1 (proj2 (setDefault_keeps_set_variables "DB_DNS" "example.db"
                    {[ "DB_DRIVER" := "sqlite" ]})) "DB_DRIVER" H2).
  - split; [reflexivity | split; [reflexivity |]].
    apply (proj1 (proj2 (proj2 (setDefault_keeps_set_variables "DB_DNS"
             "example.db" {[ "DB_DNS" := "" ]})))); reflexivity.
Defined.
